(** * firstcredit_daxko_.py: a shallow embedding and its verified properties

    The script authenticates against the Daxko partner API, lists the
    report files after a per-date cursor, asks for a signed URL for each
    file and streams it to the working directory.

    The embedding follows the source function by function.  Python values
    that come out of a JSON body are kept dynamically typed ([pyval]), the
    operations the script applies to them ([.get], subscripts, [len],
    iteration, truth tests, [.split]) raise the exception Python raises,
    and every effect is explicit in a [world]: the HTTP exchanges made so
    far, the files of the working directory and the records handed to
    [logging].

    What lies outside the script is a parameter: [http] stands for the
    [requests] library together with the network and the remote server
    (its answer may depend on everything exchanged before; it may also be
    no answer at all, in which case the call raises), and [environ] for
    the four values read with [os.getenv].

    Kept outside the model: the operating system refusing to open or
    write a file, a connection lost while a body is being streamed, the
    [logging] module failing, and interrupts delivered from outside the
    script. *)

From Stdlib.Strings Require Import Byte Ascii.
From Stdlib.Floats Require Import SpecFloat.
From stdpp Require Import base numbers strings list gmap.

Open Scope string_scope.
Open Scope list_scope.

(** ** Python values *)

#[local] Set Warnings "-register-all".

(** The values [json.loads] can produce.  A [dict] keeps its insertion
    order, as in Python; looking a key up takes its first binding. *)
Inductive pyval : Type :=
| PNone
| PBool (b : bool)
| PInt (n : Z)
| PFloat (f : spec_float)
| PStr (s : string)
| PList (l : list pyval)
| PDict (d : list (string * pyval)).

(** The exceptions the script's operations raise; all derive from
    [Exception]. *)
Inductive exn : Type :=
| RequestException              (* requests: no response was obtained *)
| JSONDecodeError               (* response.json() on a body that is not JSON *)
| AttributeError (attr : string)
| TypeError
| KeyError (key : string).

(** An f-string (or a [%s] log message) before rendering: literal pieces
    and interpolated values. *)
Inductive frag : Type :=
| Lit (s : string)
| Fmt (v : pyval)
| FmtExn (e : exn).

Definition fstring := list frag.

(** [bool(v)] *)
Definition py_truthy (v : pyval) : bool :=
  match v with
  | PNone => false
  | PBool b => b
  | PInt n => negb (n =? 0)%Z
  | PFloat (S754_zero _) => false
  | PFloat _ => true
  | PStr "" => false
  | PStr _ => true
  | PList [] => false
  | PList _ => true
  | PDict [] => false
  | PDict _ => true
  end.

(** Lookup in a [dict]. *)
Fixpoint dict_lookup (k : string) (d : list (string * pyval)) : option pyval :=
  match d with
  | [] => None
  | (k', v) :: d' => if String.eqb k k' then Some v else dict_lookup k d'
  end.

(** [str.split('/')]: never empty. *)
Fixpoint split_slash (s : string) : list string :=
  match s with
  | EmptyString => [""]
  | String c r =>
      if Ascii.eqb c "/"%char then "" :: split_slash r
      else match split_slash r with
           | h :: t => String c h :: t
           | [] => [String c ""]
           end
  end.

(** [xs[-1]] on a list of strings ([IndexError] cannot occur after
    [split], which is why the default is never seen by the script). *)
Definition last_item (xs : list string) : string := List.last xs "".

(** ['/'.join(xs)], the inverse of [split('/')] *)
Fixpoint join_slash (xs : list string) : string :=
  match xs with
  | [] => ""
  | [x] => x
  | x :: xs' => x +:+ "/" +:+ join_slash xs'
  end.

(** ['/' in s] *)
Fixpoint has_slash (s : string) : bool :=
  match s with
  | EmptyString => false
  | String c r => Ascii.eqb c "/"%char || has_slash r
  end.

(** [response.iter_content(chunk_size=n)] on a body that is fully
    available: successive slices of [n] bytes, the last one shorter. *)
Fixpoint iter_content_from (fuel n : nat) (body : list byte) : list (list byte) :=
  match fuel with
  | O => []
  | S fuel' =>
      match body with
      | [] => []
      | _ => take n body :: iter_content_from fuel' n (drop n body)
      end
  end.

Definition iter_content (n : nat) (body : list byte) : list (list byte) :=
  iter_content_from (length body) n body.

(** ** The world the script acts on *)

Inductive http_method : Type := GET | POST.

Record request : Type := Request {
  req_method  : http_method;
  req_url     : pyval;
  req_headers : list (string * fstring);
  req_params  : list (string * pyval);
  req_json    : option pyval;
  req_stream  : bool
}.

(** A response as the script reads it: [.status_code], [.text], the
    result of [.json()] ([None] when the body does not parse) and the raw
    bytes delivered by [.iter_content]. *)
Record response : Type := Response {
  status_code : Z;
  text        : string;
  json        : option pyval;
  content     : list byte
}.

(** What a call into [requests] comes back with. *)
Inductive outcome : Type :=
| Responds (r : response)
| Fails.                        (* the call raises instead of returning *)

Definition event : Type := request * outcome.

Inductive level : Type := INFO | WARNING | ERROR.

Record world : Type := World {
  trace : list event;                       (* exchanges, oldest first *)
  fs    : gmap string (list byte);          (* files of the working directory *)
  log   : list (level * fstring)            (* records given to logging *)
}.

(** ** Computations: state and exceptions *)

Inductive result (A : Type) : Type :=
| Ok (a : A)
| Raise (e : exn).
Arguments Ok {A} a.
Arguments Raise {A} e.

Definition M (A : Type) : Type := world -> result A * world.

Definition ret {A} (a : A) : M A := fun w => (Ok a, w).

Definition raise {A} (e : exn) : M A := fun w => (Raise e, w).

Definition bind {A B} (c : M A) (k : A -> M B) : M B :=
  fun w => match c w with
           | (Ok a, w') => k a w'
           | (Raise e, w') => (Raise e, w')
           end.

(** [try: c except Exception as e: h e] *)
Definition try_except {A} (c : M A) (h : exn -> M A) : M A :=
  fun w => match c w with
           | (Ok a, w') => (Ok a, w')
           | (Raise e, w') => h e w'
           end.

Notation "'let!' x ':=' c 'in' k" := (bind c (fun x => k))
  (at level 10, x name, c at level 100, k at level 200).
Notation "c '>>' k" := (bind c (fun _ => k))
  (at level 90, right associativity).

(** [for x in xs: body x] *)
Fixpoint for_each {A} (xs : list A) (body : A -> M unit) : M unit :=
  match xs with
  | [] => ret tt
  | x :: xs' => body x >> for_each xs' body
  end.

Definition lift {A} (r : result A) : M A := fun w => (r, w).

(** *** Operations on values that can raise *)

(** [v.get(k, dflt)] *)
Definition py_get (v : pyval) (k : string) (dflt : pyval) : result pyval :=
  match v with
  | PDict d => Ok (default dflt (dict_lookup k d))
  | _ => Raise (AttributeError "get")
  end.

(** [v[k]] with a string key *)
Definition py_getitem (v : pyval) (k : string) : result pyval :=
  match v with
  | PDict d =>
      match dict_lookup k d with
      | Some x => Ok x
      | None => Raise (KeyError k)
      end
  | _ => Raise TypeError
  end.

(** [len(v)] *)
Definition py_len (v : pyval) : result Z :=
  match v with
  | PStr s => Ok (Z.of_nat (String.length s))
  | PList l => Ok (Z.of_nat (length l))
  | PDict d => Ok (Z.of_nat (length d))
  | _ => Raise TypeError
  end.

(** The items [for x in v] goes through: the elements of a list, the
    characters of a string, the keys of a dict. *)
Fixpoint chars (s : string) : list pyval :=
  match s with
  | EmptyString => []
  | String c r => PStr (String c "") :: chars r
  end.

Definition py_iter (v : pyval) : result (list pyval) :=
  match v with
  | PStr s => Ok (chars s)
  | PList l => Ok l
  | PDict d => Ok (map (fun kv => PStr (fst kv)) d)
  | _ => Raise TypeError
  end.

(** [v.split('/')] *)
Definition py_split_slash (v : pyval) : result (list string) :=
  match v with
  | PStr s => Ok (split_slash s)
  | _ => Raise (AttributeError "split")
  end.

(** *** Effects *)

Definition logging (lv : level) (msg : fstring) : M unit :=
  fun w => (Ok tt, World (trace w) (fs w) (log w ++ [(lv, msg)])).

(** [open(path, 'wb')]: the file is created or truncated; opening is
    taken to succeed.  The handle is identified with the path. *)
Definition open_wb (path : string) : M string :=
  fun w => (Ok path, World (trace w) (<[path := []]> (fs w)) (log w)).

(** [f.write(chunk)] on a handle obtained from [open_wb] *)
Definition file_write (f : string) (chunk : list byte) : M unit :=
  fun w => (Ok tt, World (trace w)
                         (<[f := default [] (fs w !! f) ++ chunk]> (fs w))
                         (log w)).

(** [response.json()] *)
Definition response_json (r : response) : M pyval :=
  match json r with
  | Some v => ret v
  | None => raise JSONDecodeError
  end.

(** The values [os.getenv] returned at import time. *)
Record environ : Type := Environ {
  AUTH_URL      : option string;
  CLIENT_ID     : option string;
  CLIENT_SECRET : option string;
  SCOPE         : option string
}.

Definition of_env (o : option string) : pyval :=
  match o with
  | Some s => PStr s
  | None => PNone
  end.

Definition FILES_URL : string :=
  "https://api.partners.daxko.com/api/v1/bulk-data/drive/files".
Definition DOWNLOAD_URL_BASE : string :=
  "https://api.partners.daxko.com/api/v1/bulk-data/drive/download".
Definition PREFIX : string := "FirstCreditPaymentByItem".

Definition target_dates : list string :=
  ["08-10-2024"; "08-11-2024"; "08-12-2024"].

(** ** Shapes of listed records *)

Definition is_dict (v : pyval) : bool :=
  match v with
  | PDict _ => true
  | _ => false
  end.

(** A file record as the script uses it: an object with a [name] and a
    [lastModifiedAtUtc]. *)
Definition is_file_record (v : pyval) : bool :=
  match v with
  | PDict d =>
      match dict_lookup "name" d, dict_lookup "lastModifiedAtUtc" d with
      | Some _, Some _ => true
      | _, _ => false
      end
  | _ => false
  end.

(** ** Reading a run off its exchanges *)

(** What the answer to a resolution request amounts to: the URL handed
    back, [None], or an exception. *)
Definition download_url_in (o : outcome) : result pyval :=
  match o with
  | Fails => Raise RequestException
  | Responds r =>
      if (status_code r =? 200)%Z then
        match json r with
        | Some body => py_get body "downloadUrl" PNone
        | None => Raise JSONDecodeError
        end
      else Ok PNone
  end.

(** The four kinds of request differ in shape: the token request is the
    POST with a JSON payload, a resolution the POST without one, a
    listing the plain GET and a fetch the streamed GET. *)
Definition is_fetch (ev : event) : bool :=
  match req_method (fst ev) with
  | GET => req_stream (fst ev)
  | POST => false
  end.

(** A resolution that handed back a URL the script accepts. *)
Definition resolved (ev : event) : bool :=
  match req_method (fst ev), req_json (fst ev) with
  | POST, None =>
      match download_url_in (snd ev) with
      | Ok url => py_truthy url
      | Raise _ => false
      end
  | _, _ => false
  end.

(** The [startAfterFile] of a listing. *)
Definition listed_cursor (ev : event) : option pyval :=
  match req_method (fst ev) with
  | GET => if req_stream (fst ev) then None
           else dict_lookup "startAfterFile" (req_params (fst ev))
  | POST => None
  end.

Definition listed_cursors (evs : list event) : list pyval := omap listed_cursor evs.

Definition count (p : event -> bool) (evs : list event) : nat :=
  length (List.filter p evs).

(** A listed item whose [name], if it has one, is a string. *)
Definition name_is_str (file : pyval) : bool :=
  match py_getitem file "name" with
  | Ok (PStr _) => true
  | Ok _ => false
  | Raise _ => true
  end.

Definition names_are_str (files : pyval) : bool :=
  match py_iter files with
  | Ok items => forallb name_is_str items
  | Raise _ => true
  end.

(** A listing answer in which the names under [results] are strings. *)
Definition listing_names_are_str (r : response) : bool :=
  match json r with
  | Some (PDict d) =>
      match dict_lookup "results" d with
      | Some files => names_are_str files
      | None => true
      end
  | _ => true
  end.


(** The cursor of a date: the key after which its files are listed. *)
Definition cursor (date_str : string) : string :=
  PREFIX +:+ "/" +:+ PREFIX +:+ "-" +:+ date_str.

(** ** Servers to run the script against *)

Definition w0 : world := World [] ∅ [].

Definition env0 : environ :=
  Environ (Some "https://login.example/token") (Some "client") (Some "secret")
          (Some "bulk-data").

(** A server that answers by the kind of request alone. *)
Definition server (auth listing resolution fetch : outcome)
  : list event -> request -> outcome :=
  fun _ rq =>
    match req_method rq, req_json rq, req_stream rq with
    | POST, Some _, _ => auth
    | POST, None, _ => resolution
    | GET, _, false => listing
    | GET, _, true => fetch
    end.

Definition json_response (body : pyval) : outcome :=
  Responds (Response 200 "" (Some body) []).

Definition status_response (status : Z) (body : string) : outcome :=
  Responds (Response status body None []).

Definition token : pyval := PStr "t0k3n".
Definition grants : outcome := json_response (PDict [("access_token", token)]).
Definition denies : outcome := status_response 401 "invalid_client".

Definition file_record (name modified : string) : pyval :=
  PDict [("name", PStr name); ("lastModifiedAtUtc", PStr modified)].

Definition two_files : list pyval :=
  [file_record "FirstCreditPaymentByItem/FirstCreditPaymentByItem-08-10-2024-a.csv"
               "2024-08-10T06:00:00Z";
   file_record "FirstCreditPaymentByItem/FirstCreditPaymentByItem-08-10-2024-b.csv"
               "2024-08-10T18:00:00Z"].

Definition lists (files : list pyval) : outcome :=
  json_response (PDict [("results", PList files)]).

Definition signed_url : pyval := PStr "https://files.example/signed".
Definition resolves : outcome := json_response (PDict [("downloadUrl", signed_url)]).

Definition report : list byte := [x64; x61; x74; x61; x0a]%byte.
Definition delivers : outcome := Responds (Response 200 "" None report).

(** The scenario of the specification: two files for the first date,
    none for the other two. *)
Definition scenario : list event -> request -> outcome :=
  fun t rq =>
    match req_method rq, req_stream rq, dict_lookup "startAfterFile" (req_params rq) with
    | GET, false, Some (PStr start) =>
        if String.eqb start (cursor "08-10-2024") then lists two_files else lists []
    | _, _, _ => server grants (lists []) resolves delivers t rq
    end.

(** ** The script *)

Section Script.

(** [requests] with the network and the server behind it: the answer to
    a request, given the exchanges that came before. *)
Variable http : list event -> request -> outcome.
Variable env : environ.

(** One call into [requests]; the exchange is recorded whether or not a
    response comes back. *)
Definition send (rq : request) : M response :=
  fun w =>
    let o := http (trace w) rq in
    let w' := World (trace w ++ [(rq, o)]) (fs w) (log w) in
    match o with
    | Responds r => (Ok r, w')
    | Fails => (Raise RequestException, w')
    end.

Definition auth_request : request :=
  Request POST (of_env (AUTH_URL env))
    [("Content-Type", [Lit "application/json"])]
    []
    (Some (PDict [("client_id", of_env (CLIENT_ID env));
                  ("client_secret", of_env (CLIENT_SECRET env));
                  ("scope", of_env (SCOPE env));
                  ("grant_type", PStr "client_credentials")]))
    false.

Definition authenticate : M pyval :=
  logging INFO [Lit "Attempting authentication..."] >>
  let! response := send auth_request in
  if (status_code response =? 200)%Z then
    logging INFO [Lit "Authentication successful."] >>
    let! body := response_json response in
    lift (py_get body "access_token" PNone)
  else
    logging ERROR [Lit "Authentication failed: "; Fmt (PStr (text response))] >>
    ret PNone.

Definition listing_request (access_token : pyval) (prefix start_after_file : string)
  : request :=
  Request GET (PStr FILES_URL)
    [("Authorization", [Lit "Bearer "; Fmt access_token])]
    [("pageSize", PInt 100); ("prefix", PStr prefix);
     ("startAfterFile", PStr start_after_file)]
    None
    false.

(** The body of the logging loop over the listed files. *)
Definition log_file (file : pyval) : M unit :=
  let! name := lift (py_getitem file "name") in
  let! modified := lift (py_getitem file "lastModifiedAtUtc") in
  logging INFO [Lit "File: "; Fmt name; Lit " Last Modified: "; Fmt modified].

Definition list_files_in_prefix (access_token : pyval) (prefix start_after_file : string)
  : M pyval :=
  logging INFO [Lit "Listing files in prefix '"; Fmt (PStr prefix);
                Lit "' starting after '"; Fmt (PStr start_after_file); Lit "'..."] >>
  let! response := send (listing_request access_token prefix start_after_file) in
  if (status_code response =? 200)%Z then
    let! body := response_json response in
    let! files := lift (py_get body "results" (PList [])) in
    if py_truthy files then
      let! n := lift (py_len files) in
      logging INFO [Lit "Found "; Fmt (PInt n); Lit " files in prefix '";
                    Fmt (PStr prefix); Lit "' after '";
                    Fmt (PStr start_after_file); Lit "'."] >>
      let! items := lift (py_iter files) in
      for_each items log_file >>
      ret files
    else
      logging INFO [Lit "No files found."] >>
      ret (PList [])
  else
    logging ERROR [Lit "Failed to list files: "; Fmt (PStr (text response))] >>
    ret (PList []).

Definition resolve_request (access_token file_name : pyval) : request :=
  Request POST (PStr DOWNLOAD_URL_BASE)
    [("Authorization", [Lit "Bearer "; Fmt access_token]);
     ("Content-Type", [Lit "application/json"])]
    [("fileName", file_name)]
    None
    false.

Definition generate_download_url (access_token file_name : pyval) : M pyval :=
  logging INFO [Lit "Generating download URL for "; Fmt file_name; Lit "..."] >>
  let! response := send (resolve_request access_token file_name) in
  if (status_code response =? 200)%Z then
    let! body := response_json response in
    lift (py_get body "downloadUrl" PNone)
  else
    logging ERROR [Lit "Failed to generate download URL for "; Fmt file_name;
                   Lit ": "; Fmt (PStr (text response))] >>
    ret PNone.

Definition fetch_request (url : pyval) : request :=
  Request GET url [] [] None true.

Definition chunk_size : nat := Z.to_nat 8192.

Definition download_file (url : pyval) (local_filename : string) : M unit :=
  logging INFO [Lit "Downloading file from "; Fmt url; Lit "..."] >>
  let! response := send (fetch_request url) in
  if (status_code response =? 200)%Z then
    let! f := open_wb local_filename in
    for_each (iter_content chunk_size (content response)) (file_write f) >>
    logging INFO [Lit "File downloaded: "; Fmt (PStr local_filename)]
  else
    logging ERROR [Lit "Failed to download file from "; Fmt url; Lit ": ";
                   Fmt (PInt (status_code response))].

(** The body of [for file in files] in [main]. *)
Definition process_file (access_token : pyval) (date_str : string) (file : pyval)
  : M unit :=
  let! file_name := lift (py_getitem file "name") in
  logging INFO [Lit "Processing file for date "; Fmt (PStr date_str); Lit ": ";
                Fmt file_name] >>
  let! download_url := generate_download_url access_token file_name in
  if py_truthy download_url then
    let! parts := lift (py_split_slash file_name) in
    let local_filename := last_item parts in
    download_file download_url local_filename
  else
    logging WARNING [Lit "Skipping "; Fmt file_name;
                     Lit " due to missing download URL."].

(** The body of [for date_str in target_dates] in [main]. *)
Definition process_date (access_token : pyval) (date_str : string) : M unit :=
  let start_after_file := cursor date_str in
  let! files := list_files_in_prefix access_token PREFIX start_after_file in
  let! items := lift (py_iter files) in
  for_each items (process_file access_token date_str).

(** The [try] block of [main]. *)
Definition main_try : M unit :=
  let! access_token := authenticate in
  if py_truthy access_token then
    for_each target_dates (process_date access_token)
  else
    logging ERROR [Lit "Authentication failed. Exiting."].

Definition main : M unit :=
  logging INFO [Lit "Starting process..."] >>
  try_except main_try
    (fun e => logging ERROR [Lit "An error occurred: "; FmtExn e]).

(** ** Notions used to state the properties *)

(** [quiet c]: [c] makes no exchange and touches no file (it may log). *)
Definition quiet {A} (c : M A) : Prop :=
  forall w, trace (snd (c w)) = trace w /\ fs (snd (c w)) = fs w.

(** [one_exchange rq c]: [c] makes exactly the exchange [rq]. *)
Definition one_exchange {A} (rq : request) (c : M A) : Prop :=
  forall w, trace (snd (c w)) = trace w ++ [(rq, http (trace w) rq)].

(** [keeps_files c]: [c] leaves the working directory as it is. *)
Definition keeps_files {A} (c : M A) : Prop :=
  forall w, fs (snd (c w)) = fs w.

Definition listing_line (prefix start : string) : level * fstring :=
  (INFO, [Lit "Listing files in prefix '"; Fmt (PStr prefix);
          Lit "' starting after '"; Fmt (PStr start); Lit "'..."]).

Definition downloading_line (url : pyval) : level * fstring :=
  (INFO, [Lit "Downloading file from "; Fmt url; Lit "..."]).

Definition starting (w : world) : world :=
  snd (logging INFO [Lit "Starting process..."] w).

Definition error_line (e : exn) : level * fstring :=
  (ERROR, [Lit "An error occurred: "; FmtExn e]).

Definition cursor_value (date : string) : pyval := PStr (cursor date).

(** The server gives file names as strings, as the API documents them. *)
Definition serves_string_names : Prop :=
  forall t tok prefix start r,
    http t (listing_request tok prefix start) = Responds r ->
    listing_names_are_str r = true.

(** ** Notions used to state further properties *)

(** [fs'] has every file of [fs], and differs from it only at paths
    without a slash. *)
Definition only_local_writes (fs fs' : gmap string (list byte)) : Prop :=
  forall p, fs' !! p = fs !! p \/ (has_slash p = false /\ is_Some (fs' !! p)).

(** The exchanges of one pass of the per-file step: none, the
    resolution alone, or the resolution and the fetch of the URL it
    handed back. *)
Inductive file_exchanges (tok : pyval) : list event -> Prop :=
| no_exchange : file_exchanges tok []
| resolution_only name o :
    file_exchanges tok [(resolve_request tok name, o)]
| resolution_and_fetch name o url o' :
    download_url_in o = Ok url ->
    py_truthy url = true ->
    file_exchanges tok [(resolve_request tok name, o); (fetch_request url, o')].

(** The exchanges of the loop over the files of a date. *)
Inductive files_exchanges (tok : pyval) : list event -> Prop :=
| files_done : files_exchanges tok []
| files_more evs1 evs2 :
    file_exchanges tok evs1 -> files_exchanges tok evs2 ->
    files_exchanges tok (evs1 ++ evs2).

(** The exchanges of the loop over the dates, which an exception may end
    early: for each date reached, its listing and then the exchanges of
    its files. *)
Inductive dates_exchanges (tok : pyval) : list string -> list event -> Prop :=
| dates_end dates : dates_exchanges tok dates []
| dates_more date dates o evs1 evs2 :
    files_exchanges tok evs1 -> dates_exchanges tok dates evs2 ->
    dates_exchanges tok (date :: dates)
      ((listing_request tok PREFIX (cursor date), o) :: evs1 ++ evs2).

(** Exchanges in which a fetch only ever comes right after the
    resolution that handed back the URL fetched. *)
Inductive paired : list event -> Prop :=
| paired_nil : paired []
| paired_other ev evs :
    is_fetch ev = false -> paired evs -> paired (ev :: evs)
| paired_fetch ev fetch evs :
    resolved ev = true ->
    download_url_in (snd ev) = Ok (req_url (fst fetch)) ->
    is_fetch fetch = true ->
    paired evs -> paired (ev :: fetch :: evs).

(** [headers.get(name)] *)
Fixpoint header_lookup (name : string) (headers : list (string * fstring))
  : option fstring :=
  match headers with
  | [] => None
  | (k, v) :: headers' =>
      if String.eqb name k then Some v else header_lookup name headers'
  end.

(** A fetch goes out without any header; every other request carries
    the bearer token [tok]. *)
Definition carries_token (tok : pyval) (ev : event) : Prop :=
  if is_fetch ev then req_headers (fst ev) = []
  else header_lookup "Authorization" (req_headers (fst ev)) =
         Some [Lit "Bearer "; Fmt tok].

(** The token request: the POST with a JSON payload. *)
Definition is_token_request (ev : event) : bool :=
  match req_method (fst ev), req_json (fst ev) with
  | POST, Some _ => true
  | _, _ => false
  end.

(** ** Stepping through a computation *)

Lemma bind_ok {A B} (c : M A) (k : A -> M B) w a w' :
  c w = (Ok a, w') -> bind c k w = k a w'.
Proof. intros Hc. unfold bind. now rewrite Hc. Qed.

Lemma bind_raise {A B} (c : M A) (k : A -> M B) w e w' :
  c w = (Raise e, w') -> bind c k w = (Raise e, w').
Proof. intros Hc. unfold bind. now rewrite Hc. Qed.

Lemma send_responds rq r w :
  http (trace w) rq = Responds r ->
  send rq w = (Ok r, World (trace w ++ [(rq, Responds r)]) (fs w) (log w)).
Proof. intros Hh. unfold send. now rewrite Hh. Qed.

Lemma send_fails rq w :
  http (trace w) rq = Fails ->
  send rq w = (Raise RequestException,
               World (trace w ++ [(rq, Fails)]) (fs w) (log w)).
Proof. intros Hh. unfold send. now rewrite Hh. Qed.

Lemma send_trace rq w :
  trace (snd (send rq w)) = trace w ++ [(rq, http (trace w) rq)].
Proof. unfold send. now destruct (http (trace w) rq). Qed.

Lemma status_200 r : status_code r = 200%Z -> (status_code r =? 200)%Z = true.
Proof. apply Z.eqb_eq. Qed.

Lemma status_not_200 r : status_code r <> 200%Z -> (status_code r =? 200)%Z = false.
Proof. apply Z.eqb_neq. Qed.

(** ** Authentication *)

(** What [authenticate] does, by the answer to the token request. *)
Lemma authenticate_rejected w r :
  http (trace w) auth_request = Responds r ->
  status_code r <> 200%Z ->
  authenticate w =
    (Ok PNone,
     World (trace w ++ [(auth_request, Responds r)]) (fs w)
           (log w ++ [(INFO, [Lit "Attempting authentication..."]);
                      (ERROR, [Lit "Authentication failed: "; Fmt (PStr (text r))])])).
Proof.
  intros Hh Hs. unfold authenticate, bind, logging. cbn [trace fs log].
  rewrite (send_responds _ r); [| exact Hh]. rewrite (status_not_200 _ Hs).
  cbn. now rewrite <- app_assoc.
Qed.

Lemma authenticate_accepted w r d :
  http (trace w) auth_request = Responds r ->
  status_code r = 200%Z ->
  json r = Some (PDict d) ->
  authenticate w =
    (Ok (default PNone (dict_lookup "access_token" d)),
     World (trace w ++ [(auth_request, Responds r)]) (fs w)
           (log w ++ [(INFO, [Lit "Attempting authentication..."]);
                      (INFO, [Lit "Authentication successful."])])).
Proof.
  intros Hh Hs Hj. unfold authenticate, bind, logging. cbn [trace fs log].
  rewrite (send_responds _ r); [| exact Hh]. rewrite (status_200 _ Hs).
  unfold response_json. rewrite Hj. cbn. now rewrite <- app_assoc.
Qed.

(** C1.  A token request answered with status 200 and a JSON object makes
    [authenticate] return that object's [access_token] ([None] when the
    object has no such key); answered with any other status it makes
    [authenticate] return [None], and then [main] returns having made
    that one exchange only: no listing, resolution or fetch request. *)
Theorem C1_authenticate_token_or_halt (w : world) :
  (forall r d,
      http (trace w) auth_request = Responds r ->
      status_code r = 200%Z ->
      json r = Some (PDict d) ->
      fst (authenticate w) = Ok (default PNone (dict_lookup "access_token" d)))
  /\
  (forall r,
      http (trace w) auth_request = Responds r ->
      status_code r <> 200%Z ->
      fst (authenticate w) = Ok PNone /\
      exists w', main w = (Ok tt, w') /\
                 trace w' = trace w ++ [(auth_request, Responds r)] /\
                 fs w' = fs w).
Proof.
  split.
  - intros r d Hh Hs Hj. now rewrite (authenticate_accepted w r d).
  - intros r Hh Hs. split.
    + now rewrite (authenticate_rejected w r).
    + unfold main, try_except, main_try, bind.
      unfold logging at 1. cbn [trace fs log].
      rewrite (authenticate_rejected _ r); [| exact Hh | exact Hs].
      cbn. eexists. repeat split.
Qed.

(** ** Which effects a computation has *)

Lemma quiet_ret {A} (a : A) : quiet (ret a).
Proof. now intros w. Qed.

Lemma quiet_raise {A} (e : exn) : quiet (@raise A e).
Proof. now intros w. Qed.

Lemma quiet_lift {A} (r : result A) : quiet (lift r).
Proof. now intros w. Qed.

Lemma quiet_logging lv msg : quiet (logging lv msg).
Proof. now intros w. Qed.

Lemma quiet_bind {A B} (c : M A) (k : A -> M B) :
  quiet c -> (forall a, quiet (k a)) -> quiet (bind c k).
Proof.
  intros Hc Hk w. unfold bind. specialize (Hc w).
  destruct (c w) as [[a|e] w1]; cbn in Hc.
  - destruct (Hk a w1) as [Ht Hf]. rewrite Ht, Hf. exact Hc.
  - exact Hc.
Qed.

Lemma quiet_for_each {A} (xs : list A) (body : A -> M unit) :
  (forall x, quiet (body x)) -> quiet (for_each xs body).
Proof.
  intros Hb. induction xs as [|x xs IH]; cbn [for_each].
  - apply quiet_ret.
  - apply quiet_bind; [apply Hb | intros _; exact IH].
Qed.

Lemma quiet_response_json r : quiet (response_json r).
Proof. unfold response_json. destruct (json r); [apply quiet_ret | apply quiet_raise]. Qed.

Lemma quiet_if {A} (b : bool) (c1 c2 : M A) :
  quiet c1 -> quiet c2 -> quiet (if b then c1 else c2).
Proof. now destruct b. Qed.

Create HintDb effects.
#[local] Hint Resolve quiet_ret quiet_raise quiet_lift quiet_logging
  quiet_response_json : effects.
#[local] Hint Extern 2 (quiet (bind _ _)) => apply quiet_bind; [| intros ?] : effects.
#[local] Hint Extern 2 (quiet (for_each _ _)) => apply quiet_for_each; intros ? : effects.
#[local] Hint Extern 2 (quiet (if _ then _ else _)) => apply quiet_if : effects.

Lemma quiet_log_file file : quiet (log_file file).
Proof. unfold log_file. auto 10 with effects. Qed.

(** A computation that logs, makes one exchange and goes on quietly. *)
Lemma one_exchange_send {A} rq (k : response -> M A) :
  (forall r, quiet (k r)) ->
  one_exchange rq (bind (send rq) k) /\ keeps_files (bind (send rq) k).
Proof.
  intros Hk. split; intros w; unfold bind, send;
    destruct (http (trace w) rq) as [r|]; cbn; try reflexivity;
    destruct (Hk r (World (trace w ++ [(rq, Responds r)]) (fs w) (log w))) as [Ht Hf];
    cbn in Ht, Hf; assumption.
Qed.

Lemma one_exchange_after_quiet {A B} rq (c : M A) (k : A -> M B) :
  quiet c -> (forall w, exists a, fst (c w) = Ok a) ->
  (forall a, one_exchange rq (k a)) -> one_exchange rq (bind c k).
Proof.
  intros Hc Hok Hk w. unfold bind. destruct (Hc w) as [Ht _]. destruct (Hok w) as [a Ha].
  destruct (c w) as [r w1]; cbn in *. subst r. rewrite Hk, Ht. reflexivity.
Qed.

Lemma keeps_files_after_quiet {A B} (c : M A) (k : A -> M B) :
  quiet c -> (forall a, keeps_files (k a)) -> keeps_files (bind c k).
Proof.
  intros Hc Hk w. unfold bind. destruct (Hc w) as [_ Hf].
  destruct (c w) as [[a|e] w1]; cbn in *; [rewrite Hk|]; exact Hf.
Qed.

Lemma logged_send {A} lv msg rq (k : response -> M A) :
  (forall r, quiet (k r)) ->
  one_exchange rq (logging lv msg >> bind (send rq) k)
  /\ keeps_files (logging lv msg >> bind (send rq) k).
Proof.
  intros Hk. destruct (one_exchange_send rq k Hk) as [H1 H2]. split.
  - apply one_exchange_after_quiet; auto with effects. intros w. now exists tt.
  - apply keeps_files_after_quiet; auto with effects.
Qed.

(** ** Listing *)

(** Whatever the answer, a listing is one exchange, the GET built by
    [listing_request], and no file is touched. *)
Lemma list_files_in_prefix_effects tok prefix start :
  one_exchange (listing_request tok prefix start)
               (list_files_in_prefix tok prefix start)
  /\ keeps_files (list_files_in_prefix tok prefix start).
Proof.
  unfold list_files_in_prefix. apply logged_send. intros r.
  pose proof quiet_log_file. auto 20 with effects.
Qed.

Ltac run :=
  cbn [bind logging lift ret raise response_json py_get py_len py_iter
       py_getitem py_truthy py_split_slash open_wb file_write
       trace fs log default fst snd].

Ltac run_send Hh :=
  unfold bind, logging; cbn [trace fs log];
  erewrite send_responds by exact Hh; cbn [trace fs log].

Lemma listing_rejected tok prefix start w r :
  http (trace w) (listing_request tok prefix start) = Responds r ->
  status_code r <> 200%Z ->
  list_files_in_prefix tok prefix start w =
    (Ok (PList []),
     World (trace w ++ [(listing_request tok prefix start, Responds r)]) (fs w)
           (log w ++ [listing_line prefix start;
                      (ERROR, [Lit "Failed to list files: "; Fmt (PStr (text r))])])).
Proof.
  intros Hh Hs. unfold list_files_in_prefix. run_send Hh.
  rewrite (status_not_200 _ Hs). run. now rewrite <- app_assoc.
Qed.

Lemma listing_unreachable tok prefix start w :
  http (trace w) (listing_request tok prefix start) = Fails ->
  list_files_in_prefix tok prefix start w =
    (Raise RequestException,
     World (trace w ++ [(listing_request tok prefix start, Fails)]) (fs w)
           (log w ++ [listing_line prefix start])).
Proof.
  intros Hh. unfold list_files_in_prefix, bind, logging. cbn [trace fs log].
  erewrite send_fails by exact Hh. reflexivity.
Qed.

(** A 200 answer whose object has nothing true under [results]. *)
Lemma listing_nothing tok prefix start w r d :
  http (trace w) (listing_request tok prefix start) = Responds r ->
  status_code r = 200%Z ->
  json r = Some (PDict d) ->
  py_truthy (default (PList []) (dict_lookup "results" d)) = false ->
  list_files_in_prefix tok prefix start w =
    (Ok (PList []),
     World (trace w ++ [(listing_request tok prefix start, Responds r)]) (fs w)
           (log w ++ [listing_line prefix start; (INFO, [Lit "No files found."])])).
Proof.
  intros Hh Hs Hj Hf. unfold list_files_in_prefix. run_send Hh.
  rewrite (status_200 _ Hs). unfold response_json. rewrite Hj. run.
  rewrite Hf. run. now rewrite <- app_assoc.
Qed.

(** The logging loop over well-formed records only logs. *)
Lemma log_files_ok recs w :
  Forall (fun file => is_file_record file = true) recs ->
  exists lines,
    for_each recs log_file w = (Ok tt, World (trace w) (fs w) (log w ++ lines)).
Proof.
  intros Hrecs. revert w. induction Hrecs as [|file recs Hfile _ IH]; intros w.
  - exists []. cbn. rewrite app_nil_r. now destruct w.
  - destruct file as [| | | | | |d]; try discriminate.
    cbn in Hfile.
    destruct (dict_lookup "name" d) as [name|] eqn:Hn; [|discriminate].
    destruct (dict_lookup "lastModifiedAtUtc" d) as [modified|] eqn:Hm; [|discriminate].
    cbn [for_each]. unfold bind at 1, log_file at 1. run. rewrite Hn. run. rewrite Hm. run.
    edestruct IH as [lines Hlines]. rewrite Hlines.
    cbn [trace fs log]. rewrite <- app_assoc. eauto.
Qed.

(** The logging loop stops with [KeyError] at the first record that
    lacks one of the two keys. *)
Lemma log_files_key_error recs w :
  Forall (fun file => is_dict file = true) recs ->
  Exists (fun file => is_file_record file = false) recs ->
  exists k lines,
    (k = "name" \/ k = "lastModifiedAtUtc") /\
    for_each recs log_file w =
      (Raise (KeyError k), World (trace w) (fs w) (log w ++ lines)).
Proof.
  intros Hdicts. revert w. induction Hdicts as [|file recs Hfile _ IH]; intros w Hbad.
  - inversion Hbad.
  - destruct file as [| | | | | |d]; try discriminate.
    cbn [for_each]. unfold bind at 1, log_file at 1. run.
    destruct (dict_lookup "name" d) as [name|] eqn:Hn.
    + run. destruct (dict_lookup "lastModifiedAtUtc" d) as [modified|] eqn:Hm.
      * run. apply Exists_cons in Hbad as [Hbad|Hbad].
        { cbn in Hbad. now rewrite Hn, Hm in Hbad. }
        edestruct (IH) as (k & lines & Hk & Hrun); [exact Hbad|].
        rewrite Hrun. cbn [trace fs log]. rewrite <- app_assoc. eauto.
      * run. exists "lastModifiedAtUtc", []. rewrite app_nil_r. split; [now right|].
        now destruct w.
    + run. exists "name", []. rewrite app_nil_r. split; [now left|]. now destruct w.
Qed.

(** A 200 answer with a non-empty array under [results]: the part of
    [list_files_in_prefix] after the count is logged. *)
Lemma listing_some tok prefix start w r d rec recs :
  http (trace w) (listing_request tok prefix start) = Responds r ->
  status_code r = 200%Z ->
  json r = Some (PDict d) ->
  dict_lookup "results" d = Some (PList (rec :: recs)) ->
  exists w1,
    trace w1 = trace w ++ [(listing_request tok prefix start, Responds r)] /\
    fs w1 = fs w /\
    list_files_in_prefix tok prefix start w =
      match for_each (rec :: recs) log_file w1 with
      | (Ok _, w2) => (Ok (PList (rec :: recs)), w2)
      | (Raise e, w2) => (Raise e, w2)
      end.
Proof.
  intros Hh Hs Hj Hr. unfold list_files_in_prefix. run_send Hh.
  rewrite (status_200 _ Hs). unfold response_json. rewrite Hj. run. rewrite Hr. run.
  eexists. split; [|split]; [| |reflexivity]; reflexivity.
Qed.

(** C3.  A listing is a single GET carrying [pageSize] 100, whatever the
    answer, so no further page is ever asked for.  When the answer is a
    200 whose [results] holds N <= 100 file records, the call returns
    exactly these records in the order received; for N = 0 that is the
    empty list, returned normally. *)
Theorem C3_listing_returns_records tok prefix start (w : world) :
  (trace (snd (list_files_in_prefix tok prefix start w)) =
     trace w ++ [(listing_request tok prefix start,
                  http (trace w) (listing_request tok prefix start))]
   /\ req_method (listing_request tok prefix start) = GET
   /\ req_params (listing_request tok prefix start) =
        [("pageSize", PInt 100); ("prefix", PStr prefix);
         ("startAfterFile", PStr start)])
  /\
  (forall r d recs,
      http (trace w) (listing_request tok prefix start) = Responds r ->
      status_code r = 200%Z ->
      json r = Some (PDict d) ->
      dict_lookup "results" d = Some (PList recs) ->
      length recs <= 100 ->
      Forall (fun file => is_file_record file = true) recs ->
      fst (list_files_in_prefix tok prefix start w) = Ok (PList recs)).
Proof.
  split.
  - split; [apply list_files_in_prefix_effects | now split].
  - intros r d recs Hh Hs Hj Hr _ Hrecs. destruct recs as [|rec recs].
    + erewrite listing_nothing; eauto. now rewrite Hr.
    + destruct (listing_some tok prefix start w r d rec recs Hh Hs Hj Hr)
        as (w1 & _ & _ & Hrun).
      rewrite Hrun. destruct (log_files_ok (rec :: recs) w1 Hrecs) as [lines Hlines].
      now rewrite Hlines.
Qed.

(** C2, as the script has it.  A listing answered with a status other
    than 200 returns the empty list, the very value returned for a 200
    answer without files; a listing for which [requests] obtains no
    response does not return: the exception leaves
    [list_files_in_prefix]. *)
Theorem C2_failed_listing tok prefix start (w : world) :
  (forall r,
      http (trace w) (listing_request tok prefix start) = Responds r ->
      status_code r <> 200%Z ->
      fst (list_files_in_prefix tok prefix start w) = Ok (PList []))
  /\
  (forall r d,
      http (trace w) (listing_request tok prefix start) = Responds r ->
      status_code r = 200%Z ->
      json r = Some (PDict d) ->
      dict_lookup "results" d = Some (PList []) ->
      fst (list_files_in_prefix tok prefix start w) = Ok (PList []))
  /\
  (http (trace w) (listing_request tok prefix start) = Fails ->
   fst (list_files_in_prefix tok prefix start w) = Raise RequestException).
Proof.
  split; [|split].
  - intros r Hh Hs. now rewrite (listing_rejected _ _ _ _ _ Hh Hs).
  - intros r d Hh Hs Hj Hr. erewrite listing_nothing; eauto. now rewrite Hr.
  - intros Hh. now rewrite (listing_unreachable _ _ _ _ Hh).
Qed.

(** ** Splitting a key *)

Lemma split_slash_nonempty s : split_slash s <> [].
Proof.
  destruct s as [|c r]; [discriminate|]. cbn [split_slash].
  destruct (Ascii.eqb c "/"); [discriminate|]. now destruct (split_slash r).
Qed.

(** [split_slash] cuts at the slashes and nowhere else: joining the
    pieces with slashes gives the string back, and no piece has one. *)
Lemma join_split_slash s : join_slash (split_slash s) = s.
Proof.
  induction s as [|c r IH]; [reflexivity|]. cbn [split_slash].
  pose proof (split_slash_nonempty r) as Hne.
  destruct (Ascii.eqb c "/") eqn:Hc.
  - apply Ascii.eqb_eq in Hc as ->.
    destruct (split_slash r) as [|h t]; [congruence|].
    change (join_slash ("" :: h :: t)) with ("/" +:+ join_slash (h :: t)).
    now rewrite IH.
  - destruct (split_slash r) as [|h t]; [congruence|].
    rewrite <- IH. now destruct t.
Qed.

Lemma split_slash_no_slash s :
  Forall (fun piece => has_slash piece = false) (split_slash s).
Proof.
  induction s as [|c r IH]; [repeat constructor|]. cbn [split_slash].
  destruct (Ascii.eqb c "/") eqn:Hc.
  - now constructor.
  - destruct (split_slash r) as [|h t]; [repeat constructor; cbn; now rewrite Hc|].
    inversion IH as [|? ? Hh Ht]; subst. constructor; [|exact Ht].
    cbn. now rewrite Hc.
Qed.

Lemma last_item_no_slash s : has_slash (last_item (split_slash s)) = false.
Proof.
  pose proof (split_slash_no_slash s) as Hall.
  pose proof (split_slash_nonempty s) as Hne.
  unfold last_item. induction Hall as [|piece pieces Hp Hps IH]; [congruence|].
  destruct pieces as [|piece' pieces]; [exact Hp|]. now apply IH.
Qed.

(** ** Downloading *)

Lemma concat_iter_content_from n fuel (body : list byte) :
  0 < n -> length body <= fuel ->
  concat (iter_content_from fuel n body) = body.
Proof.
  intros Hn. revert body. induction fuel as [|fuel IH]; intros body Hlen.
  - destruct body; [reflexivity | cbn in Hlen; lia].
  - destruct body as [|b body]; [reflexivity|].
    cbn [iter_content_from concat]. rewrite IH.
    + apply take_drop.
    + rewrite length_drop. cbn [length] in *. lia.
Qed.

(** The chunks, written one after the other, are the body. *)
Lemma concat_iter_content n (body : list byte) :
  0 < n -> concat (iter_content n body) = body.
Proof. intros Hn. now apply concat_iter_content_from. Qed.



(** The loop that writes the chunks appends them to the open file. *)
Lemma write_chunks f chunks w old :
  fs w !! f = Some old ->
  for_each chunks (file_write f) w =
    (Ok tt, World (trace w) (<[f := old ++ concat chunks]> (fs w)) (log w)).
Proof.
  revert w old. induction chunks as [|c chunks IH]; intros w old Hold.
  - cbn. rewrite app_nil_r, insert_id by exact Hold. now destruct w.
  - cbn [for_each concat]. unfold bind, file_write at 1. rewrite Hold. cbn [default].
    erewrite IH by (cbn [fs]; apply lookup_insert_eq).
    cbn [trace fs log]. now rewrite insert_insert_eq, app_assoc.
Qed.

Lemma download_file_ok url path w r :
  http (trace w) (fetch_request url) = Responds r ->
  status_code r = 200%Z ->
  download_file url path w =
    (Ok tt,
     World (trace w ++ [(fetch_request url, Responds r)])
           (<[path := content r]> (fs w))
           (log w ++ [downloading_line url;
                      (INFO, [Lit "File downloaded: "; Fmt (PStr path)])])).
Proof.
  intros Hh Hs. unfold download_file. run_send Hh. rewrite (status_200 _ Hs).
  unfold open_wb. cbn [trace fs log].
  erewrite write_chunks by (cbn [fs]; apply lookup_insert_eq).
  cbn [trace fs log app]. rewrite insert_insert_eq, concat_iter_content.
  - now rewrite <- app_assoc.
  - unfold chunk_size. lia.
Qed.

Lemma download_file_rejected url path w r :
  http (trace w) (fetch_request url) = Responds r ->
  status_code r <> 200%Z ->
  download_file url path w =
    (Ok tt,
     World (trace w ++ [(fetch_request url, Responds r)]) (fs w)
           (log w ++ [downloading_line url;
                      (ERROR, [Lit "Failed to download file from "; Fmt url; Lit ": ";
                               Fmt (PInt (status_code r))])])).
Proof.
  intros Hh Hs. unfold download_file. run_send Hh. rewrite (status_not_200 _ Hs).
  run. now rewrite <- app_assoc.
Qed.

(** Whatever the answer, [download_file] makes one exchange: the streamed
    GET of the URL. *)
Lemma download_file_exchange url path :
  one_exchange (fetch_request url) (download_file url path).
Proof.
  intros w. destruct (http (trace w) (fetch_request url)) as [r|] eqn:Hh.
  - destruct (Z.eq_dec (status_code r) 200%Z) as [Hs|Hs].
    + now rewrite (download_file_ok _ _ _ _ Hh Hs).
    + now rewrite (download_file_rejected _ _ _ _ Hh Hs).
  - unfold download_file, bind, logging. cbn [trace fs log].
    erewrite send_fails by exact Hh. reflexivity.
Qed.

(** C5.  A fetch answered with a status other than 200 returns normally
    and leaves every file of the working directory, the target included,
    as it was. *)
Theorem C5_failed_download_writes_nothing url path (w : world) r :
  http (trace w) (fetch_request url) = Responds r ->
  status_code r <> 200%Z ->
  fst (download_file url path w) = Ok tt /\
  fs (snd (download_file url path w)) = fs w.
Proof.
  intros Hh Hs. now rewrite (download_file_rejected _ _ _ _ Hh Hs).
Qed.

(** ** Resolution and the per-file step *)

Lemma generate_download_url_run tok name w :
  exists lines,
    generate_download_url tok name w =
      (download_url_in (http (trace w) (resolve_request tok name)),
       World (trace w ++ [(resolve_request tok name,
                           http (trace w) (resolve_request tok name))])
             (fs w) (log w ++ lines)).
Proof.
  unfold generate_download_url, bind, logging, send. cbn [trace fs log].
  destruct (http (trace w) (resolve_request tok name)) as [r|]; cbn [download_url_in].
  - destruct (status_code r =? 200)%Z.
    + unfold response_json. destruct (json r) as [body|]; run; eauto.
    + run. rewrite <- app_assoc. eauto.
  - eauto.
Qed.

(** The result of a resolution depends on the exchanges made so far,
    not on what was logged. *)
Lemma generate_download_url_result tok name w :
  fst (generate_download_url tok name w) =
    download_url_in (http (trace w) (resolve_request tok name)).
Proof. destruct (generate_download_url_run tok name w) as [lines H]. now rewrite H. Qed.

Lemma process_file_skips tok date file name w url :
  py_getitem file "name" = Ok name ->
  download_url_in (http (trace w) (resolve_request tok name)) = Ok url ->
  py_truthy url = false ->
  exists lines,
    process_file tok date file w =
      (Ok tt,
       World (trace w ++ [(resolve_request tok name,
                           http (trace w) (resolve_request tok name))])
             (fs w) (log w ++ lines)).
Proof.
  intros Hname Hurl Hfalse. unfold process_file, bind. run. rewrite Hname.
  edestruct generate_download_url_run as [lines Hrun]. rewrite Hrun.
  cbn [trace] in *. rewrite Hurl, Hfalse. unfold logging. cbn [trace fs log].
  rewrite <- !app_assoc. eauto.
Qed.

Lemma process_file_downloads tok date file s w url :
  py_getitem file "name" = Ok (PStr s) ->
  download_url_in (http (trace w) (resolve_request tok (PStr s))) = Ok url ->
  py_truthy url = true ->
  exists lines,
    process_file tok date file w =
      download_file url (last_item (split_slash s))
        (World (trace w ++ [(resolve_request tok (PStr s),
                             http (trace w) (resolve_request tok (PStr s)))])
               (fs w) (log w ++ lines)).
Proof.
  intros Hname Hurl Htrue. unfold process_file, bind. run. rewrite Hname.
  edestruct generate_download_url_run as [lines Hrun]. rewrite Hrun.
  cbn [trace] in *. rewrite Hurl, Htrue. run. rewrite <- !app_assoc. eauto.
Qed.

(** C4.  When the resolution for a file gives no URL (or a false one),
    [process_file] returns normally having made the resolution request
    only, so no fetch is made for that file and no file is written, and
    the loop over the files of the date goes on with the remaining ones;
    with none remaining it ends normally, which lets the loop over the
    dates go on. *)
Theorem C4_unresolved_file_is_skipped tok date file name (w : world) url :
  py_getitem file "name" = Ok name ->
  fst (generate_download_url tok name w) = Ok url ->
  py_truthy url = false ->
  exists w',
    process_file tok date file w = (Ok tt, w') /\
    trace w' = trace w ++ [(resolve_request tok name,
                            http (trace w) (resolve_request tok name))] /\
    count is_fetch [(resolve_request tok name,
                     http (trace w) (resolve_request tok name))] = 0 /\
    fs w' = fs w /\
    (forall rest,
        for_each (file :: rest) (process_file tok date) w =
        for_each rest (process_file tok date) w') /\
    for_each [file] (process_file tok date) w = (Ok tt, w').
Proof.
  intros Hname Hurl Hfalse. rewrite generate_download_url_result in Hurl.
  destruct (process_file_skips tok date file name w url Hname Hurl Hfalse)
    as [lines Hrun].
  eexists. split; [exact Hrun|]. cbn [trace fs].
  repeat split.
  - intros rest. cbn [for_each]. unfold bind at 1. now rewrite Hrun.
  - cbn [for_each]. unfold bind at 1. now rewrite Hrun.
Qed.


(** ** The whole run *)

Lemma main_run w :
  main w =
    match main_try (starting w) with
    | (Ok _, w') => (Ok tt, w')
    | (Raise e, w') => (Ok tt, World (trace w') (fs w') (log w' ++ [error_line e]))
    end.
Proof.
  unfold main, try_except, bind, starting, logging. cbn [snd].
  destruct (main_try _) as [[[]|e] w']; reflexivity.
Qed.

(** C8.  [main] always returns normally.  An exception raised in its
    [try] block is caught by the handler, which logs it; nothing else is
    done afterwards: the exchanges and the files are those of the moment
    the exception was raised. *)
Theorem C8_main_returns_normally (w : world) :
  fst (main w) = Ok tt /\
  (forall e w1,
      main_try (starting w) = (Raise e, w1) ->
      snd (main w) = World (trace w1) (fs w1) (log w1 ++ [error_line e])) /\
  (forall w1,
      main_try (starting w) = (Ok tt, w1) -> snd (main w) = w1).
Proof.
  rewrite main_run. split; [|split].
  - now destruct (main_try (starting w)) as [[[]|e] w'].
  - intros e w1 Hrun. now rewrite Hrun.
  - intros w1 Hrun. now rewrite Hrun.
Qed.

Lemma for_each_raises {A} (body : A -> M unit) x xs w e w' :
  body x w = (Raise e, w') -> for_each (x :: xs) body w = (Raise e, w').
Proof. intros Hx. cbn [for_each]. now apply bind_raise. Qed.


Lemma process_date_raises tok date w e w' :
  list_files_in_prefix tok PREFIX (cursor date) w = (Raise e, w') ->
  process_date tok date w = (Raise e, w').
Proof. intros Hl. unfold process_date. now apply bind_raise. Qed.


Lemma main_try_authenticated w r d tok :
  http (trace w) auth_request = Responds r ->
  status_code r = 200%Z ->
  json r = Some (PDict d) ->
  dict_lookup "access_token" d = Some tok ->
  py_truthy tok = true ->
  exists lines,
    main_try w =
      for_each target_dates (process_date tok)
        (World (trace w ++ [(auth_request, Responds r)]) (fs w) (log w ++ lines)).
Proof.
  intros Hh Hs Hj Htok Htrue. unfold main_try.
  erewrite bind_ok by (apply authenticate_accepted; eassumption).
  rewrite Htok. cbn [from_option id]. rewrite Htrue. eauto.
Qed.

(** The listing of C9: a 200 answer whose [results] is an array of
    objects, one of which lacks a key. *)
Lemma listing_key_error tok prefix start w r d recs :
  http (trace w) (listing_request tok prefix start) = Responds r ->
  status_code r = 200%Z ->
  json r = Some (PDict d) ->
  dict_lookup "results" d = Some (PList recs) ->
  Forall (fun file => is_dict file = true) recs ->
  Exists (fun file => is_file_record file = false) recs ->
  exists k w',
    (k = "name" \/ k = "lastModifiedAtUtc") /\
    list_files_in_prefix tok prefix start w = (Raise (KeyError k), w') /\
    trace w' = trace w ++ [(listing_request tok prefix start, Responds r)] /\
    fs w' = fs w.
Proof.
  intros Hh Hs Hj Hr Hdicts Hbad. destruct recs as [|rec recs]; [inversion Hbad|].
  destruct (listing_some tok prefix start w r d rec recs Hh Hs Hj Hr)
    as (w1 & Ht & Hf & Hrun).
  destruct (log_files_key_error (rec :: recs) w1 Hdicts Hbad) as (k & lines & Hk & Hloop).
  exists k. eexists. split; [exact Hk|]. rewrite Hrun, Hloop. split; [reflexivity|].
  cbn [trace fs]. now rewrite Ht, Hf.
Qed.

(** C9.  When a listing is answered with a 200 whose [results] is a
    non-empty array of objects one of which lacks [name] or
    [lastModifiedAtUtc], [list_files_in_prefix] returns no records: it
    raises [KeyError] for the missing key.  In [main], with a token
    obtained, such an answer to the first listing ends the run there: the
    handler logs the [KeyError] and the two exchanges made are the only
    ones. *)
Theorem C9_record_without_key_raises (w : world) :
  (forall tok prefix start r d recs,
      http (trace w) (listing_request tok prefix start) = Responds r ->
      status_code r = 200%Z ->
      json r = Some (PDict d) ->
      dict_lookup "results" d = Some (PList recs) ->
      Forall (fun file => is_dict file = true) recs ->
      Exists (fun file => is_file_record file = false) recs ->
      exists k,
        (k = "name" \/ k = "lastModifiedAtUtc") /\
        fst (list_files_in_prefix tok prefix start w) = Raise (KeyError k))
  /\
  (forall ra da tok r d recs,
      http (trace w) auth_request = Responds ra ->
      status_code ra = 200%Z ->
      json ra = Some (PDict da) ->
      dict_lookup "access_token" da = Some tok ->
      py_truthy tok = true ->
      http (trace w ++ [(auth_request, Responds ra)])
           (listing_request tok PREFIX (cursor "08-10-2024")) = Responds r ->
      status_code r = 200%Z ->
      json r = Some (PDict d) ->
      dict_lookup "results" d = Some (PList recs) ->
      Forall (fun file => is_dict file = true) recs ->
      Exists (fun file => is_file_record file = false) recs ->
      exists k,
        (k = "name" \/ k = "lastModifiedAtUtc") /\
        fst (main w) = Ok tt /\
        trace (snd (main w)) =
          trace w ++ [(auth_request, Responds ra);
                      (listing_request tok PREFIX (cursor "08-10-2024"), Responds r)] /\
        List.last (log (snd (main w))) (INFO, []) = error_line (KeyError k)).
Proof.
  split.
  - intros tok prefix start r d recs Hh Hs Hj Hr Hdicts Hbad.
    destruct (listing_key_error tok prefix start w r d recs Hh Hs Hj Hr Hdicts Hbad)
      as (k & w' & Hk & Hrun & _).
    exists k. now rewrite Hrun.
  - intros ra da tok r d recs Hha Hsa Hja Htok Htrue Hh Hs Hj Hr Hdicts Hbad.
    destruct (main_try_authenticated (starting w) ra da tok Hha Hsa Hja Htok Htrue)
      as [lines Hmain].
    match type of Hmain with
    | _ = for_each _ _ ?w1 =>
        destruct (listing_key_error tok PREFIX (cursor "08-10-2024") w1 r d recs
                    Hh Hs Hj Hr Hdicts Hbad) as (k & w' & Hk & Hrun & Ht & _)
    end.
    exists k. split; [exact Hk|].
    rewrite main_run, Hmain. unfold target_dates.
    erewrite for_each_raises by (apply process_date_raises; exact Hrun).
    cbn [fst snd trace log]. rewrite Ht. cbn [starting logging snd trace].
    rewrite <- app_assoc.
    split; [reflexivity|]. split; [reflexivity|]. apply last_last.
Qed.

(** ** The order of the dates and the number of downloads *)

Lemma count_app p evs1 evs2 : count p (evs1 ++ evs2) = count p evs1 + count p evs2.
Proof. unfold count. now rewrite List.filter_app, length_app. Qed.

Lemma listed_cursors_app evs1 evs2 :
  listed_cursors (evs1 ++ evs2) = listed_cursors evs1 ++ listed_cursors evs2.
Proof. apply omap_app. Qed.



Lemma authenticate_exchange : one_exchange auth_request authenticate.
Proof. unfold authenticate. apply logged_send. intros r. auto 10 with effects. Qed.











(** ** Further properties of the listing *)

(** The logging loop gets through only when every item is a file
    record. *)
Lemma log_files_ok_inv items w w' :
  for_each items log_file w = (Ok tt, w') ->
  Forall (fun file => is_file_record file = true) items.
Proof.
  revert w. induction items as [|file items IH]; intros w Hrun; [constructor|].
  cbn [for_each] in Hrun. unfold bind at 1, log_file at 1 in Hrun.
  unfold bind, lift in Hrun.
  destruct file as [| | | | | |d]; try discriminate. cbn [py_getitem] in Hrun.
  destruct (dict_lookup "name" d) as [name|] eqn:Hn; [|discriminate].
  destruct (dict_lookup "lastModifiedAtUtc" d) as [modified|] eqn:Hm; [|discriminate].
  constructor.
  - cbn. now rewrite Hn, Hm.
  - eapply IH. exact Hrun.
Qed.

(** What [list_files_in_prefix] does with a 200 answer carrying a JSON
    object, by what the object has under [results]. *)
Lemma listing_truthy tok prefix start w r d found :
  http (trace w) (listing_request tok prefix start) = Responds r ->
  status_code r = 200%Z ->
  json r = Some (PDict d) ->
  dict_lookup "results" d = Some found ->
  py_truthy found = true ->
  exists w1,
    trace w1 = trace w ++ [(listing_request tok prefix start, Responds r)] /\
    fs w1 = fs w /\
    list_files_in_prefix tok prefix start w =
      match py_len found with
      | Raise e => (Raise e, w1)
      | Ok n =>
          match py_iter found with
          | Raise e =>
              (Raise e, World (trace w1) (fs w1)
                 (log w1 ++ [(INFO, [Lit "Found "; Fmt (PInt n); Lit " files in prefix '";
                                     Fmt (PStr prefix); Lit "' after '";
                                     Fmt (PStr start); Lit "'."])]))
          | Ok items =>
              match for_each items log_file
                      (World (trace w1) (fs w1)
                         (log w1 ++ [(INFO, [Lit "Found "; Fmt (PInt n);
                                             Lit " files in prefix '";
                                             Fmt (PStr prefix); Lit "' after '";
                                             Fmt (PStr start); Lit "'."])])) with
              | (Ok _, w2) => (Ok found, w2)
              | (Raise e, w2) => (Raise e, w2)
              end
          end
      end.
Proof.
  intros Hh Hs Hj Hr Htrue. unfold list_files_in_prefix. run_send Hh.
  rewrite (status_200 _ Hs). unfold response_json. rewrite Hj. run. rewrite Hr.
  cbn [from_option id]. rewrite Htrue. eexists. split; [|split]; [| |reflexivity]; [reflexivity..|].
  destruct (py_len found); [|reflexivity]. run.
  destruct (py_iter found); reflexivity.
Qed.

(** X1.  Whatever the server answers, a listing that returns normally
    returns a list, and every item of it is an object with a [name] and a
    [lastModifiedAtUtc]: the subscript [file["name"]] in [main] cannot
    raise [KeyError]. *)
Theorem listing_returns_file_records tok prefix start (w : world) files w' :
  list_files_in_prefix tok prefix start w = (Ok files, w') ->
  exists recs,
    files = PList recs /\
    Forall (fun file => is_file_record file = true) recs /\
    Forall (fun file => exists name, py_getitem file "name" = Ok name) recs.
Proof.
  assert (Hnames : forall recs,
             Forall (fun file => is_file_record file = true) recs ->
             Forall (fun file => exists name, py_getitem file "name" = Ok name) recs).
  { intros recs Hrecs. eapply Forall_impl; [exact Hrecs|]. intros file Hfile.
    destruct file as [| | | | | |d]; try discriminate. cbn in *.
    destruct (dict_lookup "name" d); [eauto | discriminate]. }
  assert (Hnil : exists recs : list pyval,
             PList [] = PList recs /\
             Forall (fun file => is_file_record file = true) recs /\
             Forall (fun file => exists name, py_getitem file "name" = Ok name) recs).
  { exists []. repeat split; constructor. }
  intros Hrun.
  destruct (http (trace w) (listing_request tok prefix start)) as [r|] eqn:Hh.
  - destruct (Z.eq_dec (status_code r) 200%Z) as [Hs|Hs].
    + destruct (json r) as [body|] eqn:Hj.
      * destruct body as [| | | | | |d];
          try (unfold list_files_in_prefix in Hrun; revert Hrun; run_send Hh;
               rewrite (status_200 _ Hs); unfold response_json; rewrite Hj; run;
               discriminate).
        destruct (dict_lookup "results" d) as [found|] eqn:Hr.
        -- destruct (py_truthy found) eqn:Htruthy.
           ++ destruct (listing_truthy tok prefix start w r d found Hh Hs Hj Hr Htruthy)
                as (w1 & _ & _ & Heq).
              rewrite Heq in Hrun.
              destruct (py_len found) as [n|]; [|discriminate].
              destruct (py_iter found) as [items|] eqn:Hitems; [|discriminate].
              destruct (for_each items log_file _) as [[[]|e] w2] eqn:Hloop;
                [|discriminate].
              injection Hrun as <- _. apply log_files_ok_inv in Hloop.
              destruct found as [| | | |str|l|d']; try discriminate.
              ** destruct str as [|c str]; [discriminate|].
                 injection Hitems as <-. inversion Hloop; discriminate.
              ** injection Hitems as <-. exists l. auto.
              ** destruct d' as [|[k v] d']; [discriminate|].
                 injection Hitems as <-. inversion Hloop; discriminate.
           ++ rewrite (listing_nothing tok prefix start w r d Hh Hs Hj) in Hrun
                by now rewrite Hr.
              now injection Hrun as <- _.
        -- rewrite (listing_nothing tok prefix start w r d Hh Hs Hj) in Hrun
             by now rewrite Hr.
           now injection Hrun as <- _.
      * unfold list_files_in_prefix in Hrun. revert Hrun. run_send Hh.
        rewrite (status_200 _ Hs). unfold response_json. rewrite Hj. discriminate.
    + rewrite (listing_rejected _ _ _ _ _ Hh Hs) in Hrun. now injection Hrun as <- _.
  - rewrite (listing_unreachable _ _ _ _ Hh) in Hrun. discriminate.
Qed.

(** X2.  A 200 answer whose [results] is true but not a list makes the
    listing raise [TypeError]: a number or [true] at [len], a string or
    an object at the first subscript of the logging loop. *)
Theorem listing_non_list_raises tok prefix start (w : world) r d found :
  http (trace w) (listing_request tok prefix start) = Responds r ->
  status_code r = 200%Z ->
  json r = Some (PDict d) ->
  dict_lookup "results" d = Some found ->
  py_truthy found = true ->
  (forall recs, found <> PList recs) ->
  fst (list_files_in_prefix tok prefix start w) = Raise TypeError.
Proof.
  intros Hh Hs Hj Hr Htruthy Hnot.
  destruct (listing_truthy tok prefix start w r d found Hh Hs Hj Hr Htruthy)
    as (w1 & _ & _ & Heq).
  rewrite Heq. destruct found as [|b|n|f|str|l|d']; try reflexivity; try discriminate.
  - destruct str as [|c str]; [discriminate|]. reflexivity.
  - now destruct (Hnot l).
  - destruct d' as [|[k v] d']; [discriminate|]. reflexivity.
Qed.

(** The logging loop stops with [TypeError] at an item that is not an
    object. *)
Lemma log_files_type_error before item after w :
  Forall (fun file => is_file_record file = true) before ->
  is_dict item = false ->
  fst (for_each (before ++ item :: after) log_file w) = Raise TypeError.
Proof.
  intros Hbefore Hitem. revert w.
  induction Hbefore as [|file before Hfile _ IH]; intros w.
  - cbn [app for_each]. unfold bind at 1, log_file at 1. unfold bind, lift.
    destruct item; try discriminate; reflexivity.
  - destruct (log_files_ok [file] w) as [lines Hone]; [now repeat constructor|].
    cbn [for_each] in Hone. unfold bind at 1 in Hone.
    cbn [app for_each]. unfold bind at 1.
    destruct (log_file file w) as [[[]|e] w3]; [|discriminate].
    apply IH.
Qed.

(** X3.  A 200 answer whose [results] is a list with an item that is not
    an object, all items before it being file records, makes the listing
    raise [TypeError]. *)
Theorem listing_non_object_item_raises tok prefix start (w : world) r d before item after :
  http (trace w) (listing_request tok prefix start) = Responds r ->
  status_code r = 200%Z ->
  json r = Some (PDict d) ->
  dict_lookup "results" d = Some (PList (before ++ item :: after)) ->
  Forall (fun file => is_file_record file = true) before ->
  is_dict item = false ->
  fst (list_files_in_prefix tok prefix start w) = Raise TypeError.
Proof.
  intros Hh Hs Hj Hr Hbefore Hitem.
  assert (Htruthy : py_truthy (PList (before ++ item :: after)) = true)
    by now destruct before.
  destruct (listing_truthy tok prefix start w r d _ Hh Hs Hj Hr Htruthy)
    as (w1 & _ & _ & Heq).
  rewrite Heq. cbn [py_len py_iter].
  match goal with |- context [for_each _ log_file ?w2] =>
    pose proof (log_files_type_error before item after w2 Hbefore Hitem) as Hloop;
    destruct (for_each (before ++ item :: after) log_file w2) as [[[]|e] w3]
  end; cbn [fst] in *; congruence.
Qed.

(** ** Further properties of authentication and resolution *)

Lemma authenticate_keeps_files : keeps_files authenticate.
Proof. unfold authenticate. apply logged_send. intros r. auto 10 with effects. Qed.

Lemma main_try_auth_raises w e w1 :
  authenticate w = (Raise e, w1) -> main_try w = (Raise e, w1).
Proof. intros Ha. unfold main_try. now apply bind_raise. Qed.

Lemma main_try_auth_unusable w tok w1 :
  authenticate w = (Ok tok, w1) ->
  py_truthy tok = false ->
  main_try w =
    (Ok tt, World (trace w1) (fs w1)
                  (log w1 ++ [(ERROR, [Lit "Authentication failed. Exiting."])])).
Proof.
  intros Ha Hfalse. unfold main_try. rewrite (bind_ok _ _ _ _ _ Ha). now rewrite Hfalse.
Qed.

(** X4.  [authenticate] raises when no response comes back for the token
    request ([RequestException]), when a 200 answer does not parse as
    JSON ([JSONDecodeError]) and when it parses to something that is not
    an object ([AttributeError]).  In [main] any exception of
    [authenticate] is logged by the handler and ends the run: the token
    exchange is the only one and no file is touched. *)
Theorem authenticate_failures (w : world) :
  (http (trace w) auth_request = Fails ->
   fst (authenticate w) = Raise RequestException) /\
  (forall r,
      http (trace w) auth_request = Responds r ->
      status_code r = 200%Z ->
      json r = None ->
      fst (authenticate w) = Raise JSONDecodeError) /\
  (forall r body,
      http (trace w) auth_request = Responds r ->
      status_code r = 200%Z ->
      json r = Some body ->
      is_dict body = false ->
      fst (authenticate w) = Raise (AttributeError "get")) /\
  (forall e,
      fst (authenticate (starting w)) = Raise e ->
      fst (main w) = Ok tt /\
      trace (snd (main w)) = trace w ++ [(auth_request, http (trace w) auth_request)] /\
      fs (snd (main w)) = fs w /\
      List.last (log (snd (main w))) (INFO, []) = error_line e).
Proof.
  split; [|split; [|split]].
  - intros Hh. unfold authenticate, bind, logging. cbn [trace fs log].
    erewrite send_fails by exact Hh. reflexivity.
  - intros r Hh Hs Hj. unfold authenticate. run_send Hh. rewrite (status_200 _ Hs).
    unfold response_json. now rewrite Hj.
  - intros r body Hh Hs Hj Hbody. unfold authenticate. run_send Hh.
    rewrite (status_200 _ Hs). unfold response_json. rewrite Hj. run.
    destruct body; try discriminate; reflexivity.
  - intros e He. rewrite main_run.
    pose proof (authenticate_exchange (starting w)) as Ht.
    pose proof (authenticate_keeps_files (starting w)) as Hf.
    destruct (authenticate (starting w)) as [[tok|e'] w1] eqn:Ha; [discriminate|].
    cbn [fst snd] in *. injection He as ->.
    rewrite (main_try_auth_raises _ _ _ Ha). cbn [fst snd trace fs log].
    split; [reflexivity|]. split; [exact Ht|]. split; [exact Hf|]. apply last_last.
Qed.

(** X5.  When [authenticate] returns a value that is false as a token
    ([None], the empty string, a 200 object without [access_token], ...)
    [main] logs that authentication failed and returns: the token
    exchange is the only one and no file is touched. *)
Theorem unusable_token_halts (w : world) tok :
  fst (authenticate (starting w)) = Ok tok ->
  py_truthy tok = false ->
  fst (main w) = Ok tt /\
  trace (snd (main w)) = trace w ++ [(auth_request, http (trace w) auth_request)] /\
  fs (snd (main w)) = fs w /\
  List.last (log (snd (main w))) (INFO, []) =
    (ERROR, [Lit "Authentication failed. Exiting."]).
Proof.
  intros Htok Hfalse. rewrite main_run.
  pose proof (authenticate_exchange (starting w)) as Ht.
  pose proof (authenticate_keeps_files (starting w)) as Hf.
  destruct (authenticate (starting w)) as [[tok'|e] w1] eqn:Ha; [|discriminate].
  cbn [fst snd] in *. injection Htok as ->.
  rewrite (main_try_auth_unusable _ _ _ Ha Hfalse). cbn [fst snd trace fs log].
  split; [reflexivity|]. split; [exact Ht|]. split; [exact Hf|]. apply last_last.
Qed.

(** X6.  [generate_download_url] makes exactly one exchange, the POST
    with the file name as [fileName], and touches no file.  It returns
    [None] on a status other than 200 and the object's [downloadUrl]
    ([None] when absent) on a 200 with a JSON object; it raises when no
    response comes back or when a 200 answer does not parse. *)
Theorem generate_download_url_cases tok name (w : world) :
  trace (snd (generate_download_url tok name w)) =
    trace w ++ [(resolve_request tok name, http (trace w) (resolve_request tok name))] /\
  req_params (resolve_request tok name) = [("fileName", name)] /\
  fs (snd (generate_download_url tok name w)) = fs w /\
  (http (trace w) (resolve_request tok name) = Fails ->
   fst (generate_download_url tok name w) = Raise RequestException) /\
  (forall r,
      http (trace w) (resolve_request tok name) = Responds r ->
      status_code r <> 200%Z ->
      fst (generate_download_url tok name w) = Ok PNone) /\
  (forall r d,
      http (trace w) (resolve_request tok name) = Responds r ->
      status_code r = 200%Z ->
      json r = Some (PDict d) ->
      fst (generate_download_url tok name w) =
        Ok (default PNone (dict_lookup "downloadUrl" d))) /\
  (forall r,
      http (trace w) (resolve_request tok name) = Responds r ->
      status_code r = 200%Z ->
      json r = None ->
      fst (generate_download_url tok name w) = Raise JSONDecodeError).
Proof.
  destruct (generate_download_url_run tok name w) as [lines Hrun]. rewrite Hrun.
  cbn [fst snd trace fs]. repeat split.
  - now intros ->.
  - intros r -> Hs. cbn. now rewrite (status_not_200 _ Hs).
  - intros r d -> Hs Hj. cbn. now rewrite (status_200 _ Hs), Hj.
  - intros r -> Hs Hj. cbn. now rewrite (status_200 _ Hs), Hj.
Qed.

(** ** Exceptions in the per-file step *)

Lemma download_file_unreachable url path w :
  http (trace w) (fetch_request url) = Fails ->
  download_file url path w =
    (Raise RequestException,
     World (trace w ++ [(fetch_request url, Fails)]) (fs w)
           (log w ++ [downloading_line url])).
Proof.
  intros Hh. unfold download_file, bind, logging. cbn [trace fs log].
  erewrite send_fails by exact Hh. reflexivity.
Qed.

(** X7.  When no response comes back for the fetch of a file, nothing is
    written (a file already at the target path keeps its content) and
    the exception leaves the per-file step: the remaining files of the
    date are not processed. *)
Theorem fetch_failure_ends_loop tok date file s url (w : world) :
  py_getitem file "name" = Ok (PStr s) ->
  fst (generate_download_url tok (PStr s) w) = Ok url ->
  py_truthy url = true ->
  http (trace w ++ [(resolve_request tok (PStr s),
                     http (trace w) (resolve_request tok (PStr s)))])
       (fetch_request url) = Fails ->
  exists w',
    process_file tok date file w = (Raise RequestException, w') /\
    fs w' = fs w /\
    (forall rest,
        for_each (file :: rest) (process_file tok date) w =
          (Raise RequestException, w')).
Proof.
  intros Hname Hurl Htrue Hh. rewrite generate_download_url_result in Hurl.
  destruct (process_file_downloads tok date file s w url Hname Hurl Htrue)
    as [lines Hrun].
  rewrite download_file_unreachable in Hrun by exact Hh.
  eexists. split; [exact Hrun|]. split; [reflexivity|].
  intros rest. now apply for_each_raises.
Qed.

(** X8.  A file whose [name] is not a string and for which the
    resolution hands back a URL makes the per-file step raise
    [AttributeError] at [split]: the resolution is the only exchange, no
    fetch is made and nothing is written. *)
Theorem non_string_name_raises tok date file name url (w : world) :
  py_getitem file "name" = Ok name ->
  (forall s, name <> PStr s) ->
  fst (generate_download_url tok name w) = Ok url ->
  py_truthy url = true ->
  exists w',
    process_file tok date file w = (Raise (AttributeError "split"), w') /\
    trace w' = trace w ++ [(resolve_request tok name,
                            http (trace w) (resolve_request tok name))] /\
    fs w' = fs w.
Proof.
  intros Hname Hnot Hurl Htrue. rewrite generate_download_url_result in Hurl.
  unfold process_file, bind. run. rewrite Hname.
  edestruct generate_download_url_run as [lines Hrun]. rewrite Hrun.
  cbn [trace] in *. rewrite Hurl, Htrue.
  destruct name as [| | | |s| |]; try (eexists; repeat split; reflexivity).
  now destruct (Hnot s).
Qed.

(** ** The shape of a run *)

Lemma only_local_writes_refl m : only_local_writes m m.
Proof. intros p. now left. Qed.

Lemma only_local_writes_trans m1 m2 m3 :
  only_local_writes m1 m2 -> only_local_writes m2 m3 -> only_local_writes m1 m3.
Proof.
  intros H12 H23 p. destruct (H23 p) as [Heq|[Hs Hsome]]; [|now right].
  rewrite Heq. apply H12.
Qed.

Lemma only_local_writes_insert m p body :
  has_slash p = false -> only_local_writes m (<[p := body]> m).
Proof.
  intros Hp q. destruct (decide (p = q)) as [<-|Hne].
  - right. split; [exact Hp|]. rewrite lookup_insert_eq. eauto.
  - left. now apply lookup_insert_ne.
Qed.

Lemma download_file_writes url path w :
  has_slash path = false ->
  only_local_writes (fs w) (fs (snd (download_file url path w))).
Proof.
  intros Hpath. destruct (http (trace w) (fetch_request url)) as [r|] eqn:Hh.
  - destruct (Z.eq_dec (status_code r) 200%Z) as [Hs|Hs].
    + rewrite (download_file_ok _ _ _ _ Hh Hs). now apply only_local_writes_insert.
    + rewrite (download_file_rejected _ _ _ _ Hh Hs). apply only_local_writes_refl.
  - rewrite (download_file_unreachable _ _ _ Hh). apply only_local_writes_refl.
Qed.

(** One pass of the per-file step, whatever the file and the server. *)
Lemma process_file_effects tok date file w :
  exists evs,
    trace (snd (process_file tok date file w)) = trace w ++ evs /\
    file_exchanges tok evs /\
    only_local_writes (fs w) (fs (snd (process_file tok date file w))).
Proof.
  destruct (py_getitem file "name") as [name|e] eqn:Hname.
  - destruct (download_url_in (http (trace w) (resolve_request tok name)))
      as [url|e] eqn:Hurl.
    + destruct (py_truthy url) eqn:Htruthy.
      * destruct name as [| | | |s| |];
          try (unfold process_file, bind; run; rewrite Hname;
               edestruct generate_download_url_run as [lines Hrun]; rewrite Hrun;
               cbn [trace] in *; rewrite Hurl, Htruthy; cbn [snd trace fs lift];
               eexists; split; [reflexivity|];
               split; [constructor | apply only_local_writes_refl]).
        destruct (process_file_downloads tok date file s w url Hname Hurl Htruthy)
          as [lines Hrun].
        rewrite Hrun. eexists. split; [|split].
        -- rewrite download_file_exchange. cbn [trace]. now rewrite <- app_assoc.
        -- now constructor.
        -- apply (download_file_writes url _ (World _ (fs w) _)), last_item_no_slash.
      * destruct (process_file_skips tok date file name w url Hname Hurl Htruthy)
          as [lines Hrun].
        rewrite Hrun. cbn [snd trace fs]. eexists. split; [reflexivity|].
        split; [constructor | apply only_local_writes_refl].
    + unfold process_file, bind. run. rewrite Hname.
      edestruct generate_download_url_run as [lines Hrun]. rewrite Hrun.
      cbn [trace snd] in *. rewrite Hurl. cbn [snd trace fs].
      eexists. split; [reflexivity|]. split; [constructor | apply only_local_writes_refl].
  - unfold process_file, bind. run. rewrite Hname. cbn [snd].
    exists []. rewrite app_nil_r.
    split; [reflexivity|]. split; [constructor | apply only_local_writes_refl].
Qed.

Lemma process_files_effects tok date items w :
  exists evs,
    trace (snd (for_each items (process_file tok date) w)) = trace w ++ evs /\
    files_exchanges tok evs /\
    only_local_writes (fs w) (fs (snd (for_each items (process_file tok date) w))).
Proof.
  revert w. induction items as [|file items IH]; intros w.
  - exists []. cbn. rewrite app_nil_r.
    split; [reflexivity|]. split; [constructor | apply only_local_writes_refl].
  - destruct (process_file_effects tok date file w) as (evs1 & Ht1 & He1 & Hf1).
    cbn [for_each]. unfold bind.
    destruct (process_file tok date file w) as [[[]|e] w1]; cbn [snd] in *.
    + destruct (IH w1) as (evs2 & Ht2 & He2 & Hf2).
      exists (evs1 ++ evs2). rewrite Ht2, Ht1, app_assoc. split; [reflexivity|].
      split; [now constructor | now apply only_local_writes_trans with (fs w1)].
    + exists evs1. split; [exact Ht1|]. split; [|exact Hf1].
      rewrite <- (app_nil_r evs1). constructor; [exact He1 | constructor].
Qed.

Lemma process_date_effects tok date w :
  exists evs,
    trace (snd (process_date tok date w)) =
      trace w ++ (listing_request tok PREFIX (cursor date),
                  http (trace w) (listing_request tok PREFIX (cursor date))) :: evs /\
    files_exchanges tok evs /\
    only_local_writes (fs w) (fs (snd (process_date tok date w))).
Proof.
  unfold process_date, bind.
  destruct (list_files_in_prefix_effects tok PREFIX (cursor date)) as [Ht Hf].
  specialize (Ht w). specialize (Hf w).
  destruct (list_files_in_prefix tok PREFIX (cursor date) w) as [[files|e] w1];
    cbn [snd] in Ht, Hf.
  - run. destruct (py_iter files) as [items|e].
    + destruct (process_files_effects tok date items w1) as (evs & Htf & He & Hw).
      exists evs. rewrite Htf, Ht, <- app_assoc. split; [reflexivity|].
      split; [exact He|]. now rewrite <- Hf.
    + exists []. cbn [snd]. split; [exact Ht|]. split; [constructor|].
      rewrite Hf. apply only_local_writes_refl.
  - exists []. cbn [snd]. split; [exact Ht|]. split; [constructor|].
    rewrite Hf. apply only_local_writes_refl.
Qed.

Lemma process_dates_effects tok dates w :
  exists evs,
    trace (snd (for_each dates (process_date tok) w)) = trace w ++ evs /\
    dates_exchanges tok dates evs /\
    only_local_writes (fs w) (fs (snd (for_each dates (process_date tok) w))).
Proof.
  revert w. induction dates as [|date dates IH]; intros w.
  - exists []. cbn. rewrite app_nil_r.
    split; [reflexivity|]. split; [constructor | apply only_local_writes_refl].
  - destruct (process_date_effects tok date w) as (evs1 & Ht1 & He1 & Hf1).
    cbn [for_each]. unfold bind.
    destruct (process_date tok date w) as [[[]|e] w1]; cbn [snd] in *.
    + destruct (IH w1) as (evs2 & Ht2 & He2 & Hf2).
      eexists. rewrite Ht2, Ht1, <- app_assoc. split; [reflexivity|].
      split; [now constructor | now apply only_local_writes_trans with (fs w1)].
    + eexists. rewrite Ht1. split; [reflexivity|]. split; [|exact Hf1].
      rewrite <- (app_nil_r evs1). constructor; [exact He1 | constructor].
Qed.

(** A run, whatever the server: the token request and then, when it
    gave a usable token, the loop over the dates. *)
Lemma main_effects w :
  exists evs,
    trace (snd (main w)) =
      trace w ++ (auth_request, http (trace w) auth_request) :: evs /\
    only_local_writes (fs w) (fs (snd (main w))) /\
    (evs = [] \/
     exists tok,
       fst (authenticate (starting w)) = Ok tok /\ py_truthy tok = true /\
       dates_exchanges tok target_dates evs).
Proof.
  assert (Hmain : trace (snd (main w)) = trace (snd (main_try (starting w))) /\
                  fs (snd (main w)) = fs (snd (main_try (starting w)))).
  { rewrite main_run. now destruct (main_try (starting w)) as [[[]|e] w']. }
  destruct Hmain as [-> ->].
  pose proof (authenticate_exchange (starting w)) as Ht.
  pose proof (authenticate_keeps_files (starting w)) as Hf.
  change (fs (starting w)) with (fs w) in Hf.
  change (trace (starting w)) with (trace w) in Ht.
  unfold main_try, bind.
  destruct (authenticate (starting w)) as [[tok|e] w1]; cbn [fst snd] in *.
  - destruct (py_truthy tok) eqn:Htruthy.
    + destruct (process_dates_effects tok target_dates w1) as (evs & Htd & Hd & Hw).
      exists evs. rewrite Htd, Ht, <- app_assoc. split; [reflexivity|].
      split; [now rewrite <- Hf | right; eauto].
    + exists []. cbn [snd trace fs logging]. split; [exact Ht|]. split; [|now left].
      rewrite Hf. apply only_local_writes_refl.
  - exists []. cbn [snd]. split; [exact Ht|]. split; [|now left].
    rewrite Hf. apply only_local_writes_refl.
Qed.

(** X9.  Whatever the server answers, a run leaves every file in place
    (possibly with new content) and creates or changes files only at
    paths without a slash: nothing is written outside the working
    directory through a directory part of a remote name. *)
Theorem main_writes_only_local_files (w : world) (p : string) :
  fs (snd (main w)) !! p = fs w !! p \/
  (has_slash p = false /\ is_Some (fs (snd (main w)) !! p)).
Proof. destruct (main_effects w) as (evs & _ & Hw & _). apply Hw. Qed.

Lemma file_exchanges_carry_token tok evs :
  file_exchanges tok evs -> Forall (carries_token tok) evs.
Proof. intros []; repeat constructor. Qed.

Lemma files_exchanges_carry_token tok evs :
  files_exchanges tok evs -> Forall (carries_token tok) evs.
Proof.
  induction 1 as [|evs1 evs2 H1 _ IH]; [constructor|].
  apply Forall_app. split; [now apply file_exchanges_carry_token | exact IH].
Qed.

Lemma dates_exchanges_carry_token tok dates evs :
  dates_exchanges tok dates evs -> Forall (carries_token tok) evs.
Proof.
  induction 1 as [|date dates o evs1 evs2 H1 _ IH]; [constructor|].
  constructor; [reflexivity|].
  apply Forall_app. split; [now apply files_exchanges_carry_token | exact IH].
Qed.

(** X10.  The value [authenticate] returned is the bearer token of every
    listing and every resolution of the run, and no fetch carries it: the
    signed URL is requested without any header. *)
Theorem token_on_every_request (w : world) tok :
  fst (authenticate (starting w)) = Ok tok ->
  exists evs,
    trace (snd (main w)) =
      trace w ++ (auth_request, http (trace w) auth_request) :: evs /\
    Forall (carries_token tok) evs.
Proof.
  intros Htok. destruct (main_effects w) as (evs & Ht & _ & [->|(tok' & Htok' & _ & Hd)]).
  - exists []. split; [exact Ht | constructor].
  - exists evs. split; [exact Ht|].
    rewrite Htok in Htok'. injection Htok' as <-.
    now apply dates_exchanges_carry_token with target_dates.
Qed.

Lemma paired_app evs1 evs2 : paired evs1 -> paired evs2 -> paired (evs1 ++ evs2).
Proof.
  intros H1 H2. induction H1; cbn [app]; [exact H2 | now constructor..].
Qed.

Lemma file_exchanges_paired tok evs : file_exchanges tok evs -> paired evs.
Proof.
  intros [|name o|name o url o' Hurl Htrue].
  - constructor.
  - apply paired_other; [reflexivity | constructor].
  - apply paired_fetch; [|exact Hurl|reflexivity|constructor].
    unfold resolved. cbn [fst snd req_method req_json resolve_request].
    now rewrite Hurl.
Qed.

Lemma files_exchanges_paired tok evs : files_exchanges tok evs -> paired evs.
Proof.
  induction 1 as [|evs1 evs2 H1 _ IH]; [constructor|].
  apply paired_app; [now apply file_exchanges_paired with tok | exact IH].
Qed.

Lemma dates_exchanges_paired tok dates evs : dates_exchanges tok dates evs -> paired evs.
Proof.
  induction 1 as [|date dates o evs1 evs2 H1 _ IH]; [constructor|].
  apply paired_other; [reflexivity|].
  apply paired_app; [now apply files_exchanges_paired with tok | exact IH].
Qed.

Lemma paired_fetch_follows evs :
  paired evs ->
  forall before ev after,
    evs = before ++ ev :: after ->
    is_fetch ev = true ->
    exists before' res,
      before = before' ++ [res] /\
      resolved res = true /\
      download_url_in (snd res) = Ok (req_url (fst ev)).
Proof.
  induction 1 as [|ev0 evs Hev0 _ IH|ev0 fetch evs Hres Hurl Hfetch _ IH];
    intros before ev after Heq Hev.
  - now destruct before.
  - destruct before as [|b before]; cbn [app] in Heq; injection Heq as <- Heq.
    + congruence.
    + destruct (IH _ _ _ Heq Hev) as (before' & res & -> & Hr & Hu).
      exists (ev0 :: before'), res. now repeat split.
  - destruct before as [|b before]; cbn [app] in Heq; injection Heq as <- Heq.
    + unfold resolved in Hres. unfold is_fetch in Hev.
      destruct (req_method (fst ev0)); discriminate.
    + destruct before as [|b' before]; cbn [app] in Heq; injection Heq as <- Heq.
      * exists [], ev0. now repeat split.
      * destruct (IH _ _ _ Heq Hev) as (before' & res & -> & Hr & Hu).
        exists (ev0 :: fetch :: before'), res. now repeat split.
Qed.

(** X11.  Whatever the server answers, every fetch of a run comes right
    after a resolution that handed back a true URL, and the URL fetched
    is that one: nothing is downloaded from an address the resolver did
    not give for the file at hand. *)
Theorem fetch_follows_resolution (w : world) :
  exists evs,
    trace (snd (main w)) = trace w ++ evs /\
    forall before ev after,
      evs = before ++ ev :: after ->
      is_fetch ev = true ->
      exists before' res,
        before = before' ++ [res] /\
        resolved res = true /\
        download_url_in (snd res) = Ok (req_url (fst ev)).
Proof.
  destruct (main_effects w) as (evs & Ht & _ & Hshape).
  eexists. split; [exact Ht|]. apply paired_fetch_follows.
  apply paired_other; [reflexivity|].
  destruct Hshape as [->|(tok & _ & _ & Hd)]; [constructor|].
  now apply dates_exchanges_paired with tok target_dates.
Qed.

Lemma file_exchanges_neutral tok evs :
  file_exchanges tok evs ->
  listed_cursors evs = [] /\ count is_token_request evs = 0.
Proof. now intros []. Qed.

Lemma files_exchanges_neutral tok evs :
  files_exchanges tok evs ->
  listed_cursors evs = [] /\ count is_token_request evs = 0.
Proof.
  induction 1 as [|evs1 evs2 H1 _ [IHl IHc]]; [now split|].
  destruct (file_exchanges_neutral tok evs1 H1) as [Hl Hc].
  now rewrite listed_cursors_app, count_app, Hl, Hc, IHl, IHc.
Qed.

Lemma dates_exchanges_in_order tok dates evs :
  dates_exchanges tok dates evs ->
  listed_cursors evs `prefix_of` map cursor_value dates /\
  count is_token_request evs = 0.
Proof.
  induction 1 as [dates|date dates o evs1 evs2 H1 _ [IHl IHc]].
  - split; [apply prefix_nil | reflexivity].
  - destruct (files_exchanges_neutral tok evs1 H1) as [Hl Hc].
    change ((listing_request tok PREFIX (cursor date), o) :: evs1 ++ evs2)
      with ([(listing_request tok PREFIX (cursor date), o)] ++ evs1 ++ evs2).
    rewrite !listed_cursors_app, !count_app, Hl, Hc, IHc. split; [|reflexivity].
    cbn [map]. now apply prefix_cons.
Qed.

(** X12.  Whatever the server answers, a run makes exactly one token
    request, and its listings are those of an initial part of the three
    dates, in order, each with the cursor of its date: no date is listed
    twice, none out of order and none besides the three. *)
Theorem one_token_request_then_dates (w : world) :
  exists evs,
    trace (snd (main w)) = trace w ++ evs /\
    count is_token_request evs = 1 /\
    listed_cursors evs `prefix_of`
      [PStr "FirstCreditPaymentByItem/FirstCreditPaymentByItem-08-10-2024";
       PStr "FirstCreditPaymentByItem/FirstCreditPaymentByItem-08-11-2024";
       PStr "FirstCreditPaymentByItem/FirstCreditPaymentByItem-08-12-2024"].
Proof.
  destruct (main_effects w) as (evs & Ht & _ & Hshape).
  eexists. split; [exact Ht|].
  change ((auth_request, http (trace w) auth_request) :: evs)
    with ([(auth_request, http (trace w) auth_request)] ++ evs).
  rewrite count_app, listed_cursors_app.
  destruct Hshape as [->|(tok & _ & _ & Hd)].
  - split; [reflexivity | apply prefix_nil].
  - destruct (dates_exchanges_in_order tok target_dates evs Hd) as [Hp Hc].
    rewrite Hc. split; [reflexivity | exact Hp].
Qed.

(** X13.  When no response comes back for the listing of a date, the
    exception leaves the loop over the dates there: that listing is the
    last exchange, the remaining dates are not listed and no file is
    touched. *)
Theorem listing_failure_ends_loop tok date rest (w : world) :
  http (trace w) (listing_request tok PREFIX (cursor date)) = Fails ->
  fst (for_each (date :: rest) (process_date tok) w) = Raise RequestException /\
  trace (snd (for_each (date :: rest) (process_date tok) w)) =
    trace w ++ [(listing_request tok PREFIX (cursor date), Fails)] /\
  fs (snd (for_each (date :: rest) (process_date tok) w)) = fs w.
Proof.
  intros Hh.
  erewrite for_each_raises
    by (apply process_date_raises, listing_unreachable; exact Hh).
  now repeat split.
Qed.

(** ** The local file name *)

Lemma split_slash_plain s : has_slash s = false -> split_slash s = [s].
Proof.
  induction s as [|c r IH]; [reflexivity|]. cbn [has_slash split_slash].
  destruct (Ascii.eqb c "/"); [discriminate|]. intros Hr. now rewrite (IH Hr).
Qed.

Lemma split_slash_app dir base :
  split_slash (dir +:+ "/" +:+ base) = split_slash dir ++ split_slash base.
Proof.
  induction dir as [|c r IH]; [reflexivity|].
  change (String c r +:+ "/" +:+ base) with (String c (r +:+ "/" +:+ base)).
  cbn [split_slash]. rewrite IH. pose proof (split_slash_nonempty r) as Hne.
  destruct (Ascii.eqb c "/"); [reflexivity|].
  now destruct (split_slash r).
Qed.

(** X14.  The local name [file_name.split('/')[-1]] of a remote name
    without a slash is the name itself, and that of [dir/base], where
    [base] has no slash, is [base] whatever [dir] is. *)
Theorem local_filename_is_basename :
  (forall s, has_slash s = false -> last_item (split_slash s) = s) /\
  (forall dir base,
      has_slash base = false ->
      last_item (split_slash (dir +:+ "/" +:+ base)) = base).
Proof.
  split.
  - intros s Hs. now rewrite (split_slash_plain s Hs).
  - intros dir base Hbase. rewrite split_slash_app, (split_slash_plain base Hbase).
    apply last_last.
Qed.

End Script.

(** ** A missing [results] field *)

(** C10.  A listing answered with a 200 whose JSON object has no
    [results] field returns the empty list, and what the caller can see
    of it (the value returned, the log, the files) is what it sees of a
    listing answered with a 200 whose [results] is the empty array. *)
Theorem C10_missing_results_is_empty
    (http1 http2 : list event -> request -> outcome)
    tok prefix start (w : world) r1 d1 r2 d2 :
  http1 (trace w) (listing_request tok prefix start) = Responds r1 ->
  status_code r1 = 200%Z ->
  json r1 = Some (PDict d1) ->
  dict_lookup "results" d1 = None ->
  http2 (trace w) (listing_request tok prefix start) = Responds r2 ->
  status_code r2 = 200%Z ->
  json r2 = Some (PDict d2) ->
  dict_lookup "results" d2 = Some (PList []) ->
  fst (list_files_in_prefix http1 tok prefix start w) = Ok (PList []) /\
  fst (list_files_in_prefix http1 tok prefix start w) =
    fst (list_files_in_prefix http2 tok prefix start w) /\
  log (snd (list_files_in_prefix http1 tok prefix start w)) =
    log (snd (list_files_in_prefix http2 tok prefix start w)) /\
  fs (snd (list_files_in_prefix http1 tok prefix start w)) =
    fs (snd (list_files_in_prefix http2 tok prefix start w)).
Proof.
  intros Hh1 Hs1 Hj1 Hr1 Hh2 Hs2 Hj2 Hr2.
  rewrite (listing_nothing http1 tok prefix start w r1 d1 Hh1 Hs1 Hj1)
    by now rewrite Hr1.
  rewrite (listing_nothing http2 tok prefix start w r2 d2 Hh2 Hs2 Hj2)
    by now rewrite Hr2.
  now repeat split.
Qed.

(** ** The script at work *)

Example split_slash_key :
  split_slash "FirstCreditPaymentByItem/FirstCreditPaymentByItem-08-10-2024-a.csv" =
    ["FirstCreditPaymentByItem"; "FirstCreditPaymentByItem-08-10-2024-a.csv"].
Proof. reflexivity. Qed.

Example split_slash_trailing : split_slash "a/b/" = ["a"; "b"; ""].
Proof. reflexivity. Qed.

Example basenames_collide :
  last_item (split_slash "2023/report.csv") = last_item (split_slash "2024/report.csv").
Proof. reflexivity. Qed.

Example iter_content_by_three :
  iter_content 3 [x01; x02; x03; x04; x05; x06; x07]%byte =
    [[x01; x02; x03]; [x04; x05; x06]; [x07]]%byte.
Proof. reflexivity. Qed.

(** The scenario runs to its end: token, three listings in order, and a
    resolution and a fetch for each of the two files, both stored under
    their base names. *)
Example scenario_run :
  let w := snd (main scenario env0 w0) in
  length (trace w) = 8 /\
  listed_cursors (trace w) = map cursor_value target_dates /\
  count is_fetch (trace w) = 2 /\
  fs w !! "FirstCreditPaymentByItem-08-10-2024-a.csv" = Some report /\
  fs w !! "FirstCreditPaymentByItem-08-10-2024-b.csv" = Some report.
Proof. vm_compute. repeat split. Qed.


Lemma server_names auth files resolution fetch :
  names_are_str (PList files) = true ->
  serves_string_names (server auth (lists files) resolution fetch).
Proof. intros Hfiles t tok prefix start r [= <-]. exact Hfiles. Qed.

(** ** The theorems at these servers *)

Lemma C1_witness :
  fst (authenticate (server grants (lists []) resolves delivers) env0 w0) = Ok token /\
  fst (authenticate (server denies (lists []) resolves delivers) env0 w0) = Ok PNone /\
  exists w',
    main (server denies (lists []) resolves delivers) env0 w0 = (Ok tt, w') /\
    trace w' = trace w0 ++ [(auth_request env0, denies)] /\
    fs w' = fs w0.
Proof.
  split.
  - apply (proj1 (C1_authenticate_token_or_halt
                    (server grants (lists []) resolves delivers) env0 w0)
                 (Response 200 "" (Some (PDict [("access_token", token)])) [])
                 [("access_token", token)]); reflexivity.
  - apply (proj2 (C1_authenticate_token_or_halt
                    (server denies (lists []) resolves delivers) env0 w0)
                 (Response 401 "invalid_client" None [])); [reflexivity | discriminate].
Defined.

(** C2 as stated fails: when no response comes back for a listing, the
    call raises instead of returning the empty list, and [main] stops
    after that listing while it goes through the three dates when the
    listings are empty.  The last part is the claim itself, negated: a
    listing that fails, by its status or because no response comes back,
    does not always yield the empty sequence. *)
Lemma C2_transport_failure_raises :
  fst (list_files_in_prefix (server grants Fails resolves delivers)
         token PREFIX (cursor "08-10-2024") w0) = Raise RequestException /\
  fst (list_files_in_prefix (server grants (lists []) resolves delivers)
         token PREFIX (cursor "08-10-2024") w0) = Ok (PList []) /\
  length (trace (snd (main (server grants Fails resolves delivers) env0 w0))) = 2 /\
  length (trace (snd (main (server grants (lists []) resolves delivers) env0 w0))) = 4 /\
  ~ (forall (http : list event -> request -> outcome) tok prefix start w,
        (http (trace w) (listing_request tok prefix start) = Fails \/
         exists r, http (trace w) (listing_request tok prefix start) = Responds r /\
                   status_code r <> 200%Z) ->
        fst (list_files_in_prefix http tok prefix start w) = Ok (PList [])).
Proof.
  repeat split.
  intros Hclaim.
  specialize (Hclaim (server grants Fails resolves delivers)
                     token PREFIX (cursor "08-10-2024") w0 (or_introl eq_refl)).
  discriminate Hclaim.
Qed.

Lemma C2_witness :
  fst (list_files_in_prefix (server grants (status_response 503 "unavailable")
                               resolves delivers)
         token PREFIX (cursor "08-10-2024") w0) = Ok (PList []) /\
  fst (list_files_in_prefix (server grants (lists []) resolves delivers)
         token PREFIX (cursor "08-10-2024") w0) = Ok (PList []) /\
  fst (list_files_in_prefix (server grants Fails resolves delivers)
         token PREFIX (cursor "08-10-2024") w0) = Raise RequestException.
Proof.
  split; [|split].
  - apply (proj1 (C2_failed_listing
                    (server grants (status_response 503 "unavailable") resolves delivers)
                    token PREFIX (cursor "08-10-2024") w0)
                 (Response 503 "unavailable" None []));
      [reflexivity | discriminate].
  - apply (proj1 (proj2 (C2_failed_listing
                           (server grants (lists []) resolves delivers)
                           token PREFIX (cursor "08-10-2024") w0))
                 (Response 200 "" (Some (PDict [("results", PList [])])) [])
                 [("results", PList [])]); reflexivity.
  - apply (proj2 (proj2 (C2_failed_listing
                           (server grants Fails resolves delivers)
                           token PREFIX (cursor "08-10-2024") w0))).
    reflexivity.
Defined.

Lemma C3_witness :
  fst (list_files_in_prefix (server grants (lists two_files) resolves delivers)
         token PREFIX (cursor "08-10-2024") w0) = Ok (PList two_files).
Proof.
  apply (proj2 (C3_listing_returns_records
                  (server grants (lists two_files) resolves delivers)
                  token PREFIX (cursor "08-10-2024") w0)
               (Response 200 "" (Some (PDict [("results", PList two_files)])) [])
               [("results", PList two_files)] two_files);
    try reflexivity.
  - cbn. lia.
  - repeat constructor.
Defined.

Lemma C4_witness :
  exists w',
    process_file (server grants (lists two_files) (status_response 404 "gone") delivers)
      token "08-10-2024" (file_record "dir/a.csv" "2024-08-10T06:00:00Z") w0 = (Ok tt, w') /\
    fs w' = fs w0.
Proof.
  destruct (C4_unresolved_file_is_skipped
              (server grants (lists two_files) (status_response 404 "gone") delivers)
              token "08-10-2024" (file_record "dir/a.csv" "2024-08-10T06:00:00Z")
              (PStr "dir/a.csv") w0 PNone eq_refl eq_refl eq_refl)
    as (w' & Hrun & _ & _ & Hfs & _).
  exists w'. split; assumption.
Defined.

Lemma C5_witness :
  fst (download_file (server grants (lists []) resolves (status_response 403 "expired"))
         signed_url "a.csv" w0) = Ok tt /\
  fs (snd (download_file (server grants (lists []) resolves (status_response 403 "expired"))
             signed_url "a.csv" w0)) = fs w0.
Proof.
  apply (C5_failed_download_writes_nothing
           (server grants (lists []) resolves (status_response 403 "expired"))
           signed_url "a.csv" w0 (Response 403 "expired" None []));
    [reflexivity | discriminate].
Defined.



Lemma C8_witness :
  fst (main (server Fails (lists []) resolves delivers) env0 w0) = Ok tt /\
  List.last (log (snd (main (server Fails (lists []) resolves delivers) env0 w0)))
            (INFO, []) = error_line RequestException.
Proof.
  destruct (C8_main_returns_normally (server Fails (lists []) resolves delivers) env0 w0)
    as (Hok & Hcaught & _).
  split; [exact Hok|].
  rewrite (Hcaught RequestException
             (snd (main_try (server Fails (lists []) resolves delivers) env0 (starting w0)))
             eq_refl).
  reflexivity.
Defined.

Lemma C9_witness :
  (exists k,
      (k = "name" \/ k = "lastModifiedAtUtc") /\
      fst (list_files_in_prefix
             (server grants (lists [PDict [("name", PStr "dir/a.csv")]]) resolves delivers)
             token PREFIX (cursor "08-10-2024") w0) = Raise (KeyError k)) /\
  (exists k,
      (k = "name" \/ k = "lastModifiedAtUtc") /\
      length (trace (snd (main
             (server grants (lists [PDict [("name", PStr "dir/a.csv")]]) resolves delivers)
             env0 w0))) = 2).
Proof.
  split.
  - apply (proj1 (C9_record_without_key_raises
                    (server grants (lists [PDict [("name", PStr "dir/a.csv")]])
                            resolves delivers) env0 w0)
                 token PREFIX (cursor "08-10-2024")
                 (Response 200 ""
                    (Some (PDict [("results", PList [PDict [("name", PStr "dir/a.csv")]])]))
                    [])
                 [("results", PList [PDict [("name", PStr "dir/a.csv")]])]
                 [PDict [("name", PStr "dir/a.csv")]]);
      try reflexivity.
    + repeat constructor.
    + apply Exists_cons_hd. reflexivity.
  - destruct (proj2 (C9_record_without_key_raises
                       (server grants (lists [PDict [("name", PStr "dir/a.csv")]])
                               resolves delivers) env0 w0)
                    (Response 200 "" (Some (PDict [("access_token", token)])) [])
                    [("access_token", token)] token
                    (Response 200 ""
                       (Some (PDict [("results",
                                      PList [PDict [("name", PStr "dir/a.csv")]])]))
                       [])
                    [("results", PList [PDict [("name", PStr "dir/a.csv")]])]
                    [PDict [("name", PStr "dir/a.csv")]]
                    eq_refl eq_refl eq_refl eq_refl eq_refl eq_refl eq_refl eq_refl eq_refl
                    ltac:(repeat constructor)
                    ltac:(apply Exists_cons_hd; reflexivity))
      as (k & Hk & _ & Ht & _).
    exists k. split; [exact Hk|]. rewrite Ht. reflexivity.
Defined.

Lemma C10_witness :
  fst (list_files_in_prefix (server grants (json_response (PDict [])) resolves delivers)
         token PREFIX (cursor "08-10-2024") w0) = Ok (PList []) /\
  log (snd (list_files_in_prefix
              (server grants (json_response (PDict [])) resolves delivers)
              token PREFIX (cursor "08-10-2024") w0)) =
    log (snd (list_files_in_prefix (server grants (lists []) resolves delivers)
                token PREFIX (cursor "08-10-2024") w0)).
Proof.
  destruct (C10_missing_results_is_empty
              (server grants (json_response (PDict [])) resolves delivers)
              (server grants (lists []) resolves delivers)
              token PREFIX (cursor "08-10-2024") w0
              (Response 200 "" (Some (PDict [])) []) []
              (Response 200 "" (Some (PDict [("results", PList [])])) [])
              [("results", PList [])]
              eq_refl eq_refl eq_refl eq_refl eq_refl eq_refl eq_refl eq_refl)
    as (Hempty & _ & Hlog & _).
  split; assumption.
Defined.

(** ** The further properties at these servers *)

Lemma listing_returns_file_records_witness :
  exists recs,
    PList two_files = PList recs /\
    Forall (fun file => is_file_record file = true) recs /\
    Forall (fun file => exists name, py_getitem file "name" = Ok name) recs.
Proof.
  apply (listing_returns_file_records
           (server grants (lists two_files) resolves delivers)
           token PREFIX (cursor "08-10-2024") w0 (PList two_files)
           (snd (list_files_in_prefix (server grants (lists two_files) resolves delivers)
                   token PREFIX (cursor "08-10-2024") w0))).
  reflexivity.
Defined.

Lemma listing_non_list_raises_witness :
  fst (list_files_in_prefix
         (server grants (json_response (PDict [("results", PInt 7)])) resolves delivers)
         token PREFIX (cursor "08-10-2024") w0) = Raise TypeError.
Proof.
  apply (listing_non_list_raises
           (server grants (json_response (PDict [("results", PInt 7)])) resolves delivers)
           token PREFIX (cursor "08-10-2024") w0
           (Response 200 "" (Some (PDict [("results", PInt 7)])) [])
           [("results", PInt 7)] (PInt 7));
    try reflexivity.
  intros recs Hrecs. discriminate Hrecs.
Defined.

Lemma listing_non_object_item_raises_witness :
  fst (list_files_in_prefix
         (server grants
                 (lists [file_record "dir/a.csv" "2024-08-10T06:00:00Z"; PStr "dir/b.csv"])
                 resolves delivers)
         token PREFIX (cursor "08-10-2024") w0) = Raise TypeError.
Proof.
  apply (listing_non_object_item_raises
           (server grants
                   (lists [file_record "dir/a.csv" "2024-08-10T06:00:00Z";
                           PStr "dir/b.csv"])
                   resolves delivers)
           token PREFIX (cursor "08-10-2024") w0
           (Response 200 ""
              (Some (PDict [("results",
                             PList [file_record "dir/a.csv" "2024-08-10T06:00:00Z";
                                    PStr "dir/b.csv"])])) [])
           [("results", PList [file_record "dir/a.csv" "2024-08-10T06:00:00Z";
                               PStr "dir/b.csv"])]
           [file_record "dir/a.csv" "2024-08-10T06:00:00Z"] (PStr "dir/b.csv") []);
    try reflexivity.
  repeat constructor.
Defined.

Lemma authenticate_failures_witness :
  fst (authenticate (server Fails (lists []) resolves delivers) env0 w0) =
    Raise RequestException /\
  fst (authenticate (server (status_response 200 "<html>") (lists []) resolves delivers)
         env0 w0) = Raise JSONDecodeError /\
  fst (authenticate (server (json_response (PList [])) (lists []) resolves delivers)
         env0 w0) = Raise (AttributeError "get") /\
  length (trace (snd (main (server Fails (lists []) resolves delivers) env0 w0))) = 1.
Proof.
  split; [|split; [|split]].
  - apply (proj1 (authenticate_failures
                    (server Fails (lists []) resolves delivers) env0 w0)).
    reflexivity.
  - apply (proj1 (proj2 (authenticate_failures
                           (server (status_response 200 "<html>") (lists [])
                                   resolves delivers) env0 w0))
                 (Response 200 "<html>" None [])); reflexivity.
  - apply (proj1 (proj2 (proj2 (authenticate_failures
                                  (server (json_response (PList [])) (lists [])
                                          resolves delivers) env0 w0)))
                 (Response 200 "" (Some (PList [])) []) (PList [])); reflexivity.
  - destruct (proj2 (proj2 (proj2 (authenticate_failures
                                     (server Fails (lists []) resolves delivers)
                                     env0 w0)))
                    RequestException eq_refl) as (_ & Ht & _).
    rewrite Ht. reflexivity.
Defined.

Lemma unusable_token_halts_witness :
  trace (snd (main (server (json_response (PDict [])) (lists two_files) resolves delivers)
                env0 w0)) =
    [(auth_request env0, json_response (PDict []))] /\
  fs (snd (main (server (json_response (PDict [])) (lists two_files) resolves delivers)
             env0 w0)) = fs w0.
Proof.
  destruct (unusable_token_halts
              (server (json_response (PDict [])) (lists two_files) resolves delivers)
              env0 w0 PNone eq_refl eq_refl) as (_ & Ht & Hf & _).
  split; [exact Ht | exact Hf].
Defined.

Lemma generate_download_url_cases_witness :
  fst (generate_download_url (server grants (lists []) (status_response 404 "gone") delivers)
         token (PStr "dir/a.csv") w0) = Ok PNone /\
  fst (generate_download_url (server grants (lists []) resolves delivers)
         token (PStr "dir/a.csv") w0) = Ok signed_url /\
  fst (generate_download_url (server grants (lists []) Fails delivers)
         token (PStr "dir/a.csv") w0) = Raise RequestException.
Proof.
  split; [|split].
  - destruct (generate_download_url_cases
                (server grants (lists []) (status_response 404 "gone") delivers)
                token (PStr "dir/a.csv") w0) as (_ & _ & _ & _ & Hno & _).
    apply (Hno (Response 404 "gone" None [])); [reflexivity | discriminate].
  - destruct (generate_download_url_cases
                (server grants (lists []) resolves delivers)
                token (PStr "dir/a.csv") w0) as (_ & _ & _ & _ & _ & Hurl & _).
    apply (Hurl (Response 200 "" (Some (PDict [("downloadUrl", signed_url)])) [])
                [("downloadUrl", signed_url)]); reflexivity.
  - destruct (generate_download_url_cases
                (server grants (lists []) Fails delivers)
                token (PStr "dir/a.csv") w0) as (_ & _ & _ & Hfails & _).
    apply Hfails. reflexivity.
Defined.

Lemma fetch_failure_ends_loop_witness :
  exists w',
    for_each [file_record "dir/a.csv" "2024-08-10T06:00:00Z";
              file_record "dir/b.csv" "2024-08-10T18:00:00Z"]
      (process_file (server grants (lists []) resolves Fails) token "08-10-2024") w0 =
      (Raise RequestException, w') /\
    fs w' = fs w0.
Proof.
  destruct (fetch_failure_ends_loop
              (server grants (lists []) resolves Fails)
              token "08-10-2024" (file_record "dir/a.csv" "2024-08-10T06:00:00Z")
              "dir/a.csv" signed_url w0 eq_refl eq_refl eq_refl eq_refl)
    as (w' & _ & Hf & Hloop).
  exists w'. split; [apply Hloop | exact Hf].
Defined.

Lemma non_string_name_raises_witness :
  exists w',
    process_file (server grants (lists []) resolves delivers) token "08-10-2024"
      (PDict [("name", PInt 7); ("lastModifiedAtUtc", PStr "2024-08-10T06:00:00Z")]) w0 =
      (Raise (AttributeError "split"), w') /\
    fs w' = fs w0.
Proof.
  destruct (non_string_name_raises
              (server grants (lists []) resolves delivers) token "08-10-2024"
              (PDict [("name", PInt 7); ("lastModifiedAtUtc", PStr "2024-08-10T06:00:00Z")])
              (PInt 7) signed_url w0 eq_refl
              ltac:(intros s Hs; discriminate Hs) eq_refl eq_refl)
    as (w' & Hrun & _ & Hf).
  exists w'. split; [exact Hrun | exact Hf].
Defined.

Lemma token_on_every_request_witness :
  exists evs,
    trace (snd (main scenario env0 w0)) =
      trace w0 ++ (auth_request env0, scenario (trace w0) (auth_request env0)) :: evs /\
    Forall (carries_token token) evs.
Proof. apply (token_on_every_request scenario env0 w0 token). reflexivity. Defined.

Lemma listing_failure_ends_loop_witness :
  trace (snd (for_each target_dates
                (process_date (server grants Fails resolves delivers) token) w0)) =
    [(listing_request token PREFIX (cursor "08-10-2024"), Fails)].
Proof.
  apply (listing_failure_ends_loop (server grants Fails resolves delivers)
           token "08-10-2024" ["08-11-2024"; "08-12-2024"] w0).
  reflexivity.
Defined.

Lemma local_filename_is_basename_witness :
  last_item (split_slash "report.csv") = "report.csv" /\
  last_item (split_slash ("2024/08" +:+ "/" +:+ "report.csv")) = "report.csv".
Proof.
  split.
  - apply (proj1 local_filename_is_basename). reflexivity.
  - apply (proj2 local_filename_is_basename). reflexivity.
Defined.
